(** * BACS batch formatter: [process_csv] of app.py

    A shallow embedding of [process_csv] (app.py, lines 7-75): the column
    check, the header block, the PAY loop with its [try]/[except], the
    CONTRA total, the trailer block and the [csv.writer] serialisation.

    Python objects are embedded as follows.
    - A DataFrame cell is a [value]: text, a number or a missing cell.
    - Numbers are an abstract type [number] with the operations of the class
      [Numeric] (binary floating point is not modelled): parsing text with
      [float], the column sum of pandas, the format specification [.2f] and
      [str].  [Decimal] is an instance on exact decimals, used to run the
      model on concrete datasets.
    - A row handed out by [iterrows] is a finite map from column labels to
      cells; the DataFrame is its column index together with its rows.
    - The call runs in a [frame]: the five arguments, the clock read by
      [datetime.today()] and the local variables, each unbound ([None])
      until assigned.  A raised exception leaves the frame as it was at the
      [raise], so that what had been built by then can be inspected.
    - [Heap] embeds the function a second time, with the DataFrame, the
      list [records] and the buffer [output] as objects that are passed by
      reference and changed in place; [heap_call_image] relates the two
      embeddings.
    - [csv.reader], the counterpart of the [csv.writer] that the function
      calls, is embedded with its field limit. *)

From Stdlib Require Import Ascii String ZArith QArith Lia.
From stdpp Require Import base gmap sets list strings.

Local Open Scope string_scope.
Local Open Scope list_scope.
Local Open Scope nat_scope.

(** ** Numbers *)

(** The numeric operations the function relies on.
    [float_of_str s] is [float(s)] on text ([None]: it raises ValueError);
    [column_sum xs] is the sum pandas computes over the numbers of a column;
    [format_2f x] is the f-string [{x:.2f}]; [str_of_number x] is [str(x)],
    as [csv.writer] renders a number; [zero_float] is the literal [0.0]. *)
Class Numeric (number : Type) := {
  float_of_str : string → option number;
  column_sum : list number → number;
  format_2f : number → string;
  str_of_number : number → string;
  zero_float : number;
}.

(** ** Exceptions *)

Inductive exn : Type :=
  | MissingColumns (missing : gset string)
      (* ValueError("Missing required columns: ...") of line 36 *)
  | UnboundLocalError (name : string)
  | KeyError (key : string)
  | TypeError
  | ValueError.

Inductive result (A : Type) : Type :=
  | Ok (a : A)
  | Raise (e : exn).
Arguments Ok {A} a.
Arguments Raise {A} e.

(** ** The clock *)

Record datetime : Type := {
  year : Z; month : Z; day : Z;
  hour : Z; minute : Z; second : Z; microsecond : Z;
}.

Definition digit (n : Z) : ascii := ascii_of_N (Z.to_N (48 + n `mod` 10)%Z).

Definition pad2 (n : Z) : string :=
  String (digit (n `div` 10)%Z) (String (digit n) "").

Definition pad4 (n : Z) : string :=
  String (digit (n `div` 1000)%Z) (String (digit (n `div` 100)%Z) (pad2 n)).

(** [strftime('%Y-%m-%d')]: only the calendar date is rendered. *)
Definition strftime_Ymd (d : datetime) : string :=
  pad4 (year d) +:+ "-" +:+ pad2 (month d) +:+ "-" +:+ pad2 (day d).

Definition is_digit (c : ascii) : bool :=
  let n := N_of_ascii c in (48 <=? n)%N && (n <=? 57)%N.

Definition digit_val (c : ascii) : Z := (Z.of_N (N_of_ascii c) - 48)%Z.

(** The shape YYYY-MM-DD: ten characters, digits around two hyphens. *)
Definition is_iso_date (s : string) : bool :=
  match s with
  | String y3 (String y2 (String y1 (String y0 (String h1
      (String m1 (String m0 (String h2 (String d1 (String d0 ""))))))))) =>
      is_digit y3 && is_digit y2 && is_digit y1 && is_digit y0
      && Ascii.eqb h1 "-" && is_digit m1 && is_digit m0
      && Ascii.eqb h2 "-" && is_digit d1 && is_digit d0
  | _ => false
  end.

(** Reading a YYYY-MM-DD text back as (year, month, day). *)
Definition read_iso_date (s : string) : option (Z * Z * Z) :=
  match s with
  | String y3 (String y2 (String y1 (String y0 (String _
      (String m1 (String m0 (String _ (String d1 (String d0 ""))))))))) =>
      Some (1000 * digit_val y3 + 100 * digit_val y2 + 10 * digit_val y1 + digit_val y0,
            10 * digit_val m1 + digit_val m0,
            10 * digit_val d1 + digit_val d0)%Z
  | _ => None
  end.

(** ** Delimited text: [csv.writer] and [csv.reader], default dialect

    Delimiter comma, quote character the double quote, doubled inside a quoted
    field, line terminator CR LF, minimal quoting, no escape character,
    not strict. *)

Definition comma : ascii := ",".
Definition dquote : ascii := "034".
Definition CR : ascii := "013".
Definition LF : ascii := "010".
Definition lineterminator : string := String CR (String LF "").

(** A character that forces the writer to quote the field holding it: the
    delimiter, the quote character, or a character of the line terminator. *)
Definition special (c : ascii) : bool :=
  Ascii.eqb c comma || Ascii.eqb c dquote || Ascii.eqb c CR || Ascii.eqb c LF.

Fixpoint has_special (s : string) : bool :=
  match s with
  | EmptyString => false
  | String c s' => special c || has_special s'
  end.

Fixpoint double_quotes (s : string) : string :=
  match s with
  | EmptyString => EmptyString
  | String c s' =>
      if Ascii.eqb c dquote then String dquote (String dquote (double_quotes s'))
      else String c (double_quotes s')
  end.

Definition write_field (s : string) : string :=
  if has_special s then String dquote (double_quotes s +:+ String dquote "")
  else s.

Fixpoint join_fields (fs : list string) : string :=
  match fs with
  | [] => ""
  | f :: fs' =>
      match fs' with
      | [] => write_field f
      | _ :: _ => write_field f +:+ String comma (join_fields fs')
      end
  end.

(** One row of text fields.  A row made of a single empty field is written
    as a pair of quotes, so that it differs from the empty row. *)
Definition writerow (fs : list string) : string :=
  match fs with
  | [EmptyString] => String dquote (String dquote "")
  | _ => join_fields fs
  end +:+ lineterminator.

(** The states of the reader that the default dialect can reach (it has no
    escape character). *)
Inductive ParserState : Type :=
  | START_RECORD | START_FIELD | IN_FIELD
  | IN_QUOTED_FIELD | QUOTE_IN_QUOTED_FIELD | EAT_CRNL.

Record Reader : Type := {
  state : ParserState;
  field : string;             (* the field being read *)
  fields : list string;       (* the fields of the record being read *)
}.

Definition parse_reset : Reader :=
  {| state := START_RECORD; field := ""; fields := [] |}.

Definition set_state (r : Reader) (st : ParserState) : Reader :=
  {| state := st; field := field r; fields := fields r |}.

Definition parse_save_field (r : Reader) (st : ParserState) : Reader :=
  {| state := st; field := ""; fields := fields r ++ [field r] |}.

(** The number of characters of the field being read. *)
Definition field_len (r : Reader) : N := N.of_nat (String.length (field r)).

(** The reader between two characters: its state machine and the records
    it has returned so far. *)
Record Parse : Type := {
  machine : Reader;
  returned : list (list string);
}.

Definition is_newline (c : ascii) : bool := Ascii.eqb c LF || Ascii.eqb c CR.

(** [csv.field_size_limit()]: the longest field the reader accepts, 131072
    characters unless the program sets another limit; app.py sets none. *)
Definition field_size_limit : N := 131072.

Section reader.

(** The field limit held by the csv module. *)
Variable field_limit : N.

(** A character more in the field being read; [None] is the [csv.Error]
    for a field larger than the field limit. *)
Definition parse_add_char (r : Reader) (c : ascii) (st : ParserState)
  : option Reader :=
  if (field_len r <? field_limit)%N then
    Some {| state := st; field := field r +:+ String c ""; fields := fields r |}
  else None.

(** The case START_FIELD of [parse_process_char]; [None] as a character is
    the end of a line. *)
Definition start_field (r : Reader) (c : option ascii) : option Reader :=
  match c with
  | None => Some (parse_save_field r START_RECORD)
  | Some ch =>
      if is_newline ch then Some (parse_save_field r EAT_CRNL)
      else if Ascii.eqb ch dquote then Some (set_state r IN_QUOTED_FIELD)
      else if Ascii.eqb ch comma then Some (parse_save_field r START_FIELD)
      else parse_add_char r ch IN_FIELD
  end.

(** One step of the reader's state machine on a character, or on the end of
    a line ([None]).  The result [None] is [csv.Error]. *)
Definition parse_process_char (r : Reader) (c : option ascii) : option Reader :=
  match state r with
  | START_RECORD =>
      match c with
      | None => Some r
      | Some ch =>
          if is_newline ch then Some (set_state r EAT_CRNL)
          else start_field r c
      end
  | START_FIELD => start_field r c
  | IN_FIELD =>
      match c with
      | None => Some (parse_save_field r START_RECORD)
      | Some ch =>
          if is_newline ch then Some (parse_save_field r EAT_CRNL)
          else if Ascii.eqb ch comma then Some (parse_save_field r START_FIELD)
          else parse_add_char r ch IN_FIELD
      end
  | IN_QUOTED_FIELD =>
      match c with
      | None => Some r
      | Some ch =>
          if Ascii.eqb ch dquote then Some (set_state r QUOTE_IN_QUOTED_FIELD)
          else parse_add_char r ch IN_QUOTED_FIELD
      end
  | QUOTE_IN_QUOTED_FIELD =>
      match c with
      | None => Some (parse_save_field r START_RECORD)
      | Some ch =>
          if Ascii.eqb ch dquote then parse_add_char r ch IN_QUOTED_FIELD
          else if Ascii.eqb ch comma then Some (parse_save_field r START_FIELD)
          else if is_newline ch then Some (parse_save_field r EAT_CRNL)
          else parse_add_char r ch IN_FIELD
      end
  | EAT_CRNL =>
      match c with
      | None => Some (set_state r START_RECORD)
      | Some ch => if is_newline ch then Some r else None
      end
  end.

(** The end of a line of input: the machine sees the end of the line, and
    when that leaves it at the start of a record the record read is
    returned and the machine is reset. *)
Definition end_of_line (p : Parse) : option Parse :=
  r ← parse_process_char (machine p) None;
  Some match state r with
       | START_RECORD => {| machine := parse_reset; returned := returned p ++ [fields r] |}
       | _ => {| machine := r; returned := returned p |}
       end.

(** Feeding text whose lines end after each LF, as the iteration of
    [io.StringIO(text)] delivers them. *)
Fixpoint feed (p : Parse) (s : string) : option Parse :=
  match s with
  | EmptyString => Some p
  | String c s' =>
      r ← parse_process_char (machine p) (Some c);
      let p1 := {| machine := r; returned := returned p |} in
      p2 ← (if Ascii.eqb c LF then end_of_line p1 else Some p1);
      feed p2 s'
  end.

Fixpoint unterminated (s : string) : bool :=
  match s with
  | EmptyString => false
  | String c EmptyString => negb (Ascii.eqb c LF)
  | String _ s' => unterminated s'
  end.

(** All the records of a text.  At the end of the input a pending field is
    saved and the record under way is returned. *)
Definition reader (text : string) : option (list (list string)) :=
  p ← feed {| machine := parse_reset; returned := [] |} text;
  p' ← (if unterminated text then end_of_line p else Some p);
  let r := machine p' in
  Some match state r, field r with
       | IN_QUOTED_FIELD, _ | _, String _ _ =>
           returned p' ++ [fields (parse_save_field r (state r))]
       | _, _ => returned p'
       end.

(** A field, and every field of the rows, within the field limit. *)
Definition fits (f : string) : bool :=
  (N.of_nat (String.length f) <=? field_limit)%N.

Definition within_limit (rs : list (list string)) : bool :=
  forallb (forallb fits) rs.

End reader.

(** The reader has a whole field in hand: nothing was written for an empty
    field, or it stands in an unquoted field, or after the closing quote. *)
Definition field_read (st : ParserState) (f : string) : Prop :=
  (st = START_FIELD ∧ f = "") ∨ st = IN_FIELD ∨ st = QUOTE_IN_QUOTED_FIELD.

(** The text [csv.writer] produces for rows of text fields. *)
Definition write_text (rs : list (list string)) : string :=
  foldr (λ r text, writerow r +:+ text) "" rs.

(** A calendar date that [datetime] can hold and that [%Y] renders on four
    digits. *)
Definition valid_date (d : datetime) : Prop :=
  (1000 ≤ year d ≤ 9999 ∧ 1 ≤ month d ≤ 12 ∧ 1 ≤ day d ≤ 31)%Z.

Section process_csv.
Context {number : Type} `{!Numeric number}.

(** ** Cells, rows and the DataFrame *)

Inductive value : Type :=
  | Str (s : string)        (* a Python str *)
  | Num (x : number)        (* an int or float cell, NaN included *)
  | NoneVal.                (* a missing cell: None *)

(** The rows are the rows of dtype object: the cells that [iterrows] hands
    out are the cells of the columns.  ([iterrows] builds each row in the
    common dtype of all the columns; a dataset with a column of text, such
    as the beneficiary names, has rows of dtype object.  A dataset whose
    columns are all numeric, in which [iterrows] turns integers into
    floats, is outside the model.) *)
Record DataFrame : Type := {
  columns : list string;
  rows : list (gmap string value);
}.

(** A record of the output file: a list of fields. *)
#[local] Abbreviation record := (list value).

(** ** The frame of a call and its monad *)

Record args : Type := {
  df : DataFrame;
  debtor_name : string;
  debtor_account : string;
  batch_id : string;
  contra_sort_code : string;
}.

(** The local variables, unbound until assigned. *)
Record locals : Type := {
  missing : option (gset string);
  today : option string;
  records : option (list record);
  amount_val : option number;
  amount_valu : option number;
  total_ammount : option value;
  output : option string;
}.

Record frame : Type := {
  arguments : args;
  clock : datetime;
  vars : locals;
}.

Definition unbound : locals :=
  {| missing := None; today := None; records := None; amount_val := None;
     amount_valu := None; total_ammount := None; output := None |}.

Definition entry (a : args) (now : datetime) : frame :=
  {| arguments := a; clock := now; vars := unbound |}.

(** A computation in a frame: it returns or raises, and leaves a frame. *)
Definition M (A : Type) : Type := frame → result A * frame.

#[export] Instance M_ret : MRet M := λ A a σ, (Ok a, σ).

#[export] Instance M_bind : MBind M := λ A B f m σ,
  match m σ with
  | (Ok a, σ') => f a σ'
  | (Raise e, σ') => (Raise e, σ')
  end.

#[export] Instance result_ret : MRet result := λ A a, Ok a.

#[export] Instance result_bind : MBind result := λ A B f m,
  match m with
  | Ok a => f a
  | Raise e => Raise e
  end.

Definition raise {A : Type} (e : exn) : M A := λ σ, (Raise e, σ).

(** An operation that touches no variable. *)
Definition lift {A : Type} (r : result A) : M A := λ σ, (r, σ).

(** [try: body / except Exception: handler]. *)
Definition try_except (body handler : M unit) : M unit := λ σ,
  match body σ with
  | (Ok u, σ') => (Ok u, σ')
  | (Raise _, σ') => handler σ'
  end.

Fixpoint for_each {A : Type} (xs : list A) (body : A → M unit) : M unit :=
  match xs with
  | [] => mret ()
  | x :: xs' => body x;; for_each xs' body
  end.

Definition arg {A : Type} (get : args → A) : M A := λ σ, (Ok (get (arguments σ)), σ).

(** [datetime.today()]. *)
Definition datetime_today : M datetime := λ σ, (Ok (clock σ), σ).

(** Reading a local variable; an unbound one raises UnboundLocalError. *)
Definition read {A : Type} (name : string) (get : locals → option A) : M A := λ σ,
  match get (vars σ) with
  | Some v => (Ok v, σ)
  | None => (Raise (UnboundLocalError name), σ)
  end.

Definition assign (set : locals → locals) : M unit := λ σ,
  (Ok (), {| arguments := arguments σ; clock := clock σ; vars := set (vars σ) |}).

Definition set_missing (v : gset string) (l : locals) : locals :=
  {| missing := Some v; today := today l; records := records l;
     amount_val := amount_val l; amount_valu := amount_valu l;
     total_ammount := total_ammount l; output := output l |}.

Definition set_today (v : string) (l : locals) : locals :=
  {| missing := missing l; today := Some v; records := records l;
     amount_val := amount_val l; amount_valu := amount_valu l;
     total_ammount := total_ammount l; output := output l |}.

Definition set_records (v : list record) (l : locals) : locals :=
  {| missing := missing l; today := today l; records := Some v;
     amount_val := amount_val l; amount_valu := amount_valu l;
     total_ammount := total_ammount l; output := output l |}.

Definition set_amount_val (v : number) (l : locals) : locals :=
  {| missing := missing l; today := today l; records := records l;
     amount_val := Some v; amount_valu := amount_valu l;
     total_ammount := total_ammount l; output := output l |}.

Definition set_amount_valu (v : number) (l : locals) : locals :=
  {| missing := missing l; today := today l; records := records l;
     amount_val := amount_val l; amount_valu := Some v;
     total_ammount := total_ammount l; output := output l |}.

Definition set_total_ammount (v : value) (l : locals) : locals :=
  {| missing := missing l; today := today l; records := records l;
     amount_val := amount_val l; amount_valu := amount_valu l;
     total_ammount := Some v; output := output l |}.

Definition set_output (v : string) (l : locals) : locals :=
  {| missing := missing l; today := today l; records := records l;
     amount_val := amount_val l; amount_valu := amount_valu l;
     total_ammount := total_ammount l; output := Some v |}.

(** [records.append(r)]. *)
Definition append (r : record) : M unit :=
  rs ← read "records" records;
  assign (set_records (rs ++ [r])).

(** ** The operations on cells and columns *)

(** [row[key]]. *)
Definition getitem (row : gmap string value) (key : string) : result value :=
  match row !! key with
  | Some v => Ok v
  | None => Raise (KeyError key)
  end.

(** [float(v)]: a number converts, text is parsed (ValueError when it is no
    numeral), None raises TypeError. *)
Definition float (v : value) : result number :=
  match v with
  | Num x => Ok x
  | Str s => match float_of_str s with Some x => Ok x | None => Raise ValueError end
  | NoneVal => Raise TypeError
  end.

(** [df[key]]: the cells of a column, in row order. *)
Definition column (d : DataFrame) (key : string) : result (list value) :=
  if bool_decide (key ∈ columns d) then
    foldr (λ row acc, v ← getitem row key; vs ← acc; mret (v :: vs)) (mret []) (rows d)
  else Raise (KeyError key).

Definition is_text (v : value) : bool :=
  match v with Str _ => true | _ => false end.

Definition number_of (v : value) : option number :=
  match v with Num x => Some x | _ => None end.

Definition text_of (v : value) : string :=
  match v with Str s => s | _ => "" end.

Definition is_missing (v : value) : bool :=
  match v with NoneVal => true | _ => false end.

(** [Series.sum()], which skips the missing cells.  When no cell that is
    left is text their numbers are summed; cells of text only are
    concatenated ([+] on str); text next to a number cannot be added:
    TypeError. *)
Definition series_sum (vs : list value) : result value :=
  let present := List.filter (λ v, negb (is_missing v)) vs in
  if forallb (λ v, negb (is_text v)) present then
    Ok (Num (column_sum (omap number_of present)))
  else if forallb is_text present then
    Ok (Str (foldr (λ v acc, text_of v +:+ acc) "" present))
  else Raise TypeError.

(** The f-string [{v:.2f}]: text has no format code [f] (ValueError). *)
Definition format_total (v : value) : result string :=
  match v with
  | Num x => Ok (format_2f x)
  | Str _ => Raise ValueError
  | NoneVal => Raise TypeError
  end.

(** What [csv.writer] writes for a field: text as it is, None as the empty
    text, anything else through [str]. *)
Definition render (v : value) : string :=
  match v with
  | Str s => s
  | Num x => str_of_number x
  | NoneVal => ""
  end.

Definition writerows (rs : list record) : string :=
  foldr (λ r text, writerow (render <$> r) +:+ text) "" rs.

(** [writer.writerows(records)] into the buffer [output]. *)
Definition write (text : string) : M unit :=
  buf ← read "output" output;
  assign (set_output (buf +:+ text)).

(** ** [process_csv] *)

Definition required_cols : gset string :=
  {[ "beneficiary_name"; "beneficiary_sort_code"; "beneficiary_account";
     "amount"; "payment_reference"; "processing_date" ]}.

(** [s.issubset(labels)]. *)
Definition issubset (s : gset string) (labels : list string) : bool :=
  bool_decide (s ⊆ list_to_set labels).

(** Lines 34-36: the column check. *)
Definition check_columns (d : DataFrame) : M unit :=
  if issubset required_cols (columns d) then mret ()
  else
    assign (set_missing (required_cols ∖ list_to_set (columns d)));;
    m ← read "missing" missing;
    raise (MissingColumns m).

(** Lines 49-62: the body of the loop over [df.iterrows()]. *)
Definition pay_row (row : gmap string value) : M unit :=
  try_except
    (x ← lift (getitem row "amount" ≫= float);
     assign (set_amount_val x))
    (assign (set_amount_valu zero_float));;
  name ← lift (getitem row "beneficiary_name");
  sort_code ← lift (getitem row "beneficiary_sort_code");
  account ← lift (getitem row "beneficiary_account");
  amount ← read "amount_val" amount_val;
  reference ← lift (getitem row "payment_reference");
  date ← lift (getitem row "processing_date");
  append [Str "PAY"; name; sort_code; account; Str (format_2f amount);
          reference; date; Str ""].

Definition process_csv : M string :=
  d ← arg df;
  name ← arg debtor_name;
  account ← arg debtor_account;
  batch ← arg batch_id;
  contra ← arg contra_sort_code;
  check_columns d;;
  now ← datetime_today;
  assign (set_today (strftime_Ymd now));;
  assign (set_records []);;
  (* Header records *)
  t ← read "today" today;
  append [Str "VOL"; Str "001"; Str "HSBC"; Str t; Str ""; Str ""; Str ""; Str ""];;
  append [Str "HDR1"; Str name; Str account; Str "HSBC"; Str t; Str ""; Str ""; Str ""];;
  append [Str "HDR2"; Str ("Payment Batch " +:+ batch); Str batch;
          Str ""; Str ""; Str ""; Str ""; Str ""];;
  append [Str "UHL1"; Str name; Str account; Str ""; Str ""; Str ""; Str ""; Str ""];;
  (* One PAY record for each row *)
  for_each (rows d) pay_row;;
  (* CONTRA record (summing up the amount column) *)
  total ← lift (column d "amount" ≫= series_sum);
  assign (set_total_ammount total);;
  total ← read "total_ammount" total_ammount;
  amount ← lift (format_total total);
  append [Str "CONTRA"; Str name; Str contra; Str account; Str amount;
          Str ""; Str ""; Str ""];;
  append [Str "EOF1"; Str "End of File"; Str ""; Str ""; Str ""; Str ""; Str ""; Str ""];;
  append [Str "EOF2"; Str "Checksum"; Str ""; Str ""; Str ""; Str ""; Str ""; Str ""];;
  append [Str "UTL1"; Str "Processing Complete"; Str ""; Str ""; Str ""; Str ""; Str ""; Str ""];;
  (* Write records to the in-memory buffer *)
  assign (set_output "");;
  rs ← read "records" records;
  write (writerows rs);;
  read "output" output.

(** A call: the function run in the frame of its entry. *)
Definition call (a : args) (now : datetime) : result string * frame :=
  process_csv (entry a now).


(** ** The call in closed form

    What a call computes, as a function of its arguments and of the clock.
    [call_outcome] below proves that the program [process_csv] and this
    function agree, on the value returned or the exception raised and on
    the frame left. *)


(** The amount a row yields inside the [try], if [float] accepts it. *)
Definition parsed_amount (row : gmap string value) : option number :=
  match getitem row "amount" ≫= float with
  | Ok x => Some x
  | Raise _ => None
  end.

(** The [try] statement on the pair ([amount_val], [amount_valu]). *)
Definition try_amount (row : gmap string value) (av avu : option number)
  : option number * option number :=
  match parsed_amount row with
  | Some x => (Some x, avu)
  | None => (av, Some zero_float)
  end.

(** The list display of lines 53-62, its elements evaluated in order. *)
Definition pay_record (row : gmap string value) (av : option number) : result record :=
  name ← getitem row "beneficiary_name";
  sort_code ← getitem row "beneficiary_sort_code";
  account ← getitem row "beneficiary_account";
  amount ← match av with
            | Some x => Ok x
            | None => Raise (UnboundLocalError "amount_val")
            end;
  reference ← getitem row "payment_reference";
  date ← getitem row "processing_date";
  mret [Str "PAY"; name; sort_code; account; Str (format_2f amount);
        reference; date; Str ""].

(** The loop on ([records], [amount_val], [amount_valu]). *)
Fixpoint run_rows (rs : list (gmap string value)) (recs : list record)
    (av avu : option number)
  : result unit * (list record * option number * option number) :=
  match rs with
  | [] => (Ok (), (recs, av, avu))
  | row :: rs' =>
      let '(av', avu') := try_amount row av avu in
      match pay_record row av' with
      | Ok r => run_rows rs' (recs ++ [r]) av' avu'
      | Raise e => (Raise e, (recs, av', avu'))
      end
  end.

Definition header_block (a : args) (t : string) : list record :=
  [ [Str "VOL"; Str "001"; Str "HSBC"; Str t; Str ""; Str ""; Str ""; Str ""];
    [Str "HDR1"; Str (debtor_name a); Str (debtor_account a); Str "HSBC"; Str t;
     Str ""; Str ""; Str ""];
    [Str "HDR2"; Str ("Payment Batch " +:+ batch_id a); Str (batch_id a);
     Str ""; Str ""; Str ""; Str ""; Str ""];
    [Str "UHL1"; Str (debtor_name a); Str (debtor_account a);
     Str ""; Str ""; Str ""; Str ""; Str ""] ].

Definition contra_record (a : args) (amount : string) : record :=
  [Str "CONTRA"; Str (debtor_name a); Str (contra_sort_code a);
   Str (debtor_account a); Str amount; Str ""; Str ""; Str ""].

Definition trailer_block : list record :=
  [ [Str "EOF1"; Str "End of File"; Str ""; Str ""; Str ""; Str ""; Str ""; Str ""];
    [Str "EOF2"; Str "Checksum"; Str ""; Str ""; Str ""; Str ""; Str ""; Str ""];
    [Str "UTL1"; Str "Processing Complete"; Str ""; Str ""; Str ""; Str ""; Str ""; Str ""] ].

(** The frame of a call past the column check. *)
Definition frame_at (a : args) (now : datetime) (recs : list record)
    (av avu : option number) (total : option value) (out : option string) : frame :=
  {| arguments := a; clock := now;
     vars := {| missing := None; today := Some (strftime_Ymd now);
                records := Some recs; amount_val := av; amount_valu := avu;
                total_ammount := total; output := out |} |}.

Definition outcome (a : args) (now : datetime) : result string * frame :=
  let cols : gset string := list_to_set (columns (df a)) in
  if issubset required_cols (columns (df a)) then
    match run_rows (rows (df a)) (header_block a (strftime_Ymd now)) None None with
    | (Raise e, (recs, av, avu)) => (Raise e, frame_at a now recs av avu None None)
    | (Ok _, (recs, av, avu)) =>
        match column (df a) "amount" ≫= series_sum with
        | Raise e => (Raise e, frame_at a now recs av avu None None)
        | Ok total =>
            match format_total total with
            | Raise e => (Raise e, frame_at a now recs av avu (Some total) None)
            | Ok amount =>
                let all := recs ++ contra_record a amount :: trailer_block in
                (Ok (writerows all),
                 frame_at a now all av avu (Some total) (Some (writerows all)))
            end
        end
    end
  else
    (Raise (MissingColumns (required_cols ∖ cols)),
     {| arguments := a; clock := now;
        vars := set_missing (required_cols ∖ cols) unbound |}).


(** ** Notions used to state the properties *)

(** The shape of a DataFrame: every row has a cell under each column label
    and under no other label. *)
Definition rectangular (d : DataFrame) : Prop :=
  Forall (λ row : gmap string value, dom row = list_to_set (columns d)) (rows d).

(** The record type tag: the first field. *)
Definition tag (r : record) : option value := head r.

(** [r] is the PAY record of [row] with the amount text [amount]. *)
Definition pay_of (row : gmap string value) (amount : string) (r : record) : Prop :=
  ∃ name sort_code account reference date,
    row !! "beneficiary_name" = Some name ∧
    row !! "beneficiary_sort_code" = Some sort_code ∧
    row !! "beneficiary_account" = Some account ∧
    row !! "payment_reference" = Some reference ∧
    row !! "processing_date" = Some date ∧
    r = [Str "PAY"; name; sort_code; account; Str amount; reference; date; Str ""].

(** [amount_val] after the [try] on [row], when it held [av] before. *)
Definition carried (av : option number) (row : gmap string value) : option number :=
  match parsed_amount row with
  | Some x => Some x
  | None => av
  end.

(** [amount_val] when the record of row [i] is built. *)
Definition amount_at (rs : list (gmap string value)) (i : nat) : option number :=
  foldl carried None (take (S i) rs).

(** The number of leading fields a record type populates, read off the
    list displays of lines 42-45 and 53-69. *)
Definition populated (r : record) : nat :=
  match r with
  | Str t :: _ =>
      if String.eqb t "VOL" then 4
      else if String.eqb t "HDR1" then 5
      else if String.eqb t "HDR2" then 3
      else if String.eqb t "UHL1" then 3
      else if String.eqb t "PAY" then 7
      else if String.eqb t "CONTRA" then 5
      else if String.eqb t "EOF1" then 2
      else if String.eqb t "EOF2" then 2
      else if String.eqb t "UTL1" then 2
      else 8
  | _ => 8
  end.

(** Eight fields, the positions past the populated ones holding empty text. *)
Definition well_formed (r : record) : Prop :=
  length r = 8 ∧ populated r < 8 ∧
  drop (populated r) r = replicate (8 - populated r) (Str "").

Definition is_blank (v : value) : bool :=
  match v with
  | Str EmptyString => true
  | _ => false
  end.

Fixpoint leading_blanks (r : record) : nat :=
  match r with
  | v :: r' => if is_blank v then S (leading_blanks r') else 0
  | [] => 0
  end.

(** The number of empty text fields at the end of a record. *)
Definition trailing_blanks (r : record) : nat := leading_blanks (reverse r).

(** The records as [csv.writer] renders their fields, and rows of text as
    records of text fields. *)
Definition rendered (recs : list record) : list (list string) :=
  (λ r : record, render <$> r) <$> recs.

Definition as_text (rs : list (list string)) : list record :=
  (λ r : list string, Str <$> r) <$> rs.

(** Every cell outside the amount column is text. *)
Definition text_cells (d : DataFrame) : Prop :=
  Forall (λ row : gmap string value,
            ∀ k v, row !! k = Some v → k ≠ "amount" → is_text v = true) (rows d).

End process_csv.

(** A record of the output file: a list of fields. *)
Abbreviation record := (list value).

(** * The call on the heap

    In [process_csv] above the arguments are values and the list [records]
    and the buffer [output] are the contents of local variables.  Here they
    are objects: the DataFrame is an object that the caller holds and
    passes by reference, [records = []] and [io.StringIO()] make new
    objects, [records.append] and [writer.writerows] change an object in
    place, and each use of [df] reads the object as it is then. *)

Module Heap.
Section heap.
Context {number : Type} `{!Numeric number}.
#[local] Abbreviation value := (@value number).
#[local] Abbreviation DataFrame := (@DataFrame number).
#[local] Abbreviation record := (list value).

Definition loc : Type := positive.

Inductive object : Type :=
  | DataFrameObject (d : DataFrame)
  | ListObject (rs : list record)       (* a list of records *)
  | StringIO (text : string).           (* an in-memory text buffer *)

(** The arguments as the caller passes them: the reference of the
    DataFrame and four strings. *)
Record args : Type := {
  df : loc;
  debtor_name : string;
  debtor_account : string;
  batch_id : string;
  contra_sort_code : string;
}.

Record locals : Type := {
  missing : option (gset string);
  today : option string;
  records : option loc;
  amount_val : option number;
  amount_valu : option number;
  total_ammount : option value;
  output : option loc;
}.

(** The objects of the program and the frame of the call. *)
Record state : Type := {
  objects : gmap loc object;
  arguments : args;
  clock : datetime;
  vars : locals;
}.

Definition unbound : locals :=
  {| missing := None; today := None; records := None; amount_val := None;
     amount_valu := None; total_ammount := None; output := None |}.

Definition entry (h : gmap loc object) (a : args) (now : datetime) : state :=
  {| objects := h; arguments := a; clock := now; vars := unbound |}.

Definition M (A : Type) : Type := state → result A * state.

#[export] Instance M_ret : MRet M := λ A a σ, (Ok a, σ).

#[export] Instance M_bind : MBind M := λ A B f m σ,
  match m σ with
  | (Ok a, σ') => f a σ'
  | (Raise e, σ') => (Raise e, σ')
  end.

Definition raise {A : Type} (e : exn) : M A := λ σ, (Raise e, σ).

Definition lift {A : Type} (r : result A) : M A := λ σ, (r, σ).

Definition try_except (body handler : M unit) : M unit := λ σ,
  match body σ with
  | (Ok u, σ') => (Ok u, σ')
  | (Raise _, σ') => handler σ'
  end.

Fixpoint for_each {A : Type} (xs : list A) (body : A → M unit) : M unit :=
  match xs with
  | [] => mret ()
  | x :: xs' => body x;; for_each xs' body
  end.

Definition arg {A : Type} (get : args → A) : M A := λ σ, (Ok (get (arguments σ)), σ).

Definition datetime_today : M datetime := λ σ, (Ok (clock σ), σ).

Definition read {A : Type} (name : string) (get : locals → option A) : M A := λ σ,
  match get (vars σ) with
  | Some v => (Ok v, σ)
  | None => (Raise (UnboundLocalError name), σ)
  end.

Definition assign (set : locals → locals) : M unit := λ σ,
  (Ok (), {| objects := objects σ; arguments := arguments σ; clock := clock σ;
             vars := set (vars σ) |}).

Definition set_missing (v : gset string) (l : locals) : locals :=
  {| missing := Some v; today := today l; records := records l;
     amount_val := amount_val l; amount_valu := amount_valu l;
     total_ammount := total_ammount l; output := output l |}.

Definition set_today (v : string) (l : locals) : locals :=
  {| missing := missing l; today := Some v; records := records l;
     amount_val := amount_val l; amount_valu := amount_valu l;
     total_ammount := total_ammount l; output := output l |}.

Definition set_records (v : loc) (l : locals) : locals :=
  {| missing := missing l; today := today l; records := Some v;
     amount_val := amount_val l; amount_valu := amount_valu l;
     total_ammount := total_ammount l; output := output l |}.

Definition set_amount_val (v : number) (l : locals) : locals :=
  {| missing := missing l; today := today l; records := records l;
     amount_val := Some v; amount_valu := amount_valu l;
     total_ammount := total_ammount l; output := output l |}.

Definition set_amount_valu (v : number) (l : locals) : locals :=
  {| missing := missing l; today := today l; records := records l;
     amount_val := amount_val l; amount_valu := Some v;
     total_ammount := total_ammount l; output := output l |}.

Definition set_total_ammount (v : value) (l : locals) : locals :=
  {| missing := missing l; today := today l; records := records l;
     amount_val := amount_val l; amount_valu := amount_valu l;
     total_ammount := Some v; output := output l |}.

Definition set_output (v : loc) (l : locals) : locals :=
  {| missing := missing l; today := today l; records := records l;
     amount_val := amount_val l; amount_valu := amount_valu l;
     total_ammount := total_ammount l; output := Some v |}.

(** A new object, at a location that holds none. *)
Definition new (o : object) : M loc := λ σ,
  let l := fresh (dom (objects σ)) in
  (Ok l, {| objects := <[l := o]> (objects σ); arguments := arguments σ;
            clock := clock σ; vars := vars σ |}).

(** An object changed in place. *)
Definition update (l : loc) (o : object) : M unit := λ σ,
  (Ok (), {| objects := <[l := o]> (objects σ); arguments := arguments σ;
             clock := clock σ; vars := vars σ |}).

(** The object behind a reference, as a DataFrame, a list or a buffer; an
    object of another kind lacks the attribute asked for. *)
Definition dataframe_at (l : loc) : M DataFrame := λ σ,
  match objects σ !! l with
  | Some (DataFrameObject d) => (Ok d, σ)
  | _ => (Raise TypeError, σ)
  end.

Definition list_at (l : loc) : M (list record) := λ σ,
  match objects σ !! l with
  | Some (ListObject rs) => (Ok rs, σ)
  | _ => (Raise TypeError, σ)
  end.

Definition buffer_at (l : loc) : M string := λ σ,
  match objects σ !! l with
  | Some (StringIO text) => (Ok text, σ)
  | _ => (Raise TypeError, σ)
  end.

(** [records.append(r)]: the list object grows in place. *)
Definition append (r : record) : M unit :=
  l ← read "records" records;
  rs ← list_at l;
  update l (ListObject (rs ++ [r])).

(** [writer.writerows(rs)], the writer made on the buffer [output]. *)
Definition write (text : string) : M unit :=
  l ← read "output" output;
  buf ← buffer_at l;
  update l (StringIO (buf +:+ text)).

(** Lines 34-36: the column check. *)
Definition check_columns : M unit :=
  l ← arg df;
  d ← dataframe_at l;
  if issubset required_cols (columns d) then mret ()
  else
    l ← arg df;
    d ← dataframe_at l;
    assign (set_missing (required_cols ∖ list_to_set (columns d)));;
    m ← read "missing" missing;
    raise (MissingColumns m).

(** Lines 49-62: the body of the loop over [df.iterrows()]. *)
Definition pay_row (row : gmap string value) : M unit :=
  try_except
    (x ← lift (getitem row "amount" ≫= float);
     assign (set_amount_val x))
    (assign (set_amount_valu zero_float));;
  name ← lift (getitem row "beneficiary_name");
  sort_code ← lift (getitem row "beneficiary_sort_code");
  account ← lift (getitem row "beneficiary_account");
  amount ← read "amount_val" amount_val;
  reference ← lift (getitem row "payment_reference");
  date ← lift (getitem row "processing_date");
  append [Str "PAY"; name; sort_code; account; Str (format_2f amount);
          reference; date; Str ""].

Definition process_csv : M string :=
  check_columns;;
  now ← datetime_today;
  assign (set_today (strftime_Ymd now));;
  l ← new (ListObject []);
  assign (set_records l);;
  (* Header records *)
  t ← read "today" today;
  name ← arg debtor_name;
  account ← arg debtor_account;
  batch ← arg batch_id;
  append [Str "VOL"; Str "001"; Str "HSBC"; Str t; Str ""; Str ""; Str ""; Str ""];;
  append [Str "HDR1"; Str name; Str account; Str "HSBC"; Str t; Str ""; Str ""; Str ""];;
  append [Str "HDR2"; Str ("Payment Batch " +:+ batch); Str batch;
          Str ""; Str ""; Str ""; Str ""; Str ""];;
  append [Str "UHL1"; Str name; Str account; Str ""; Str ""; Str ""; Str ""; Str ""];;
  (* One PAY record for each row: [df.iterrows()] reads the DataFrame *)
  l ← arg df;
  d ← dataframe_at l;
  for_each (rows d) pay_row;;
  (* CONTRA record: [df["amount"]] reads the DataFrame again *)
  l ← arg df;
  d ← dataframe_at l;
  total ← lift (column d "amount" ≫= series_sum);
  assign (set_total_ammount total);;
  total ← read "total_ammount" total_ammount;
  amount ← lift (format_total total);
  contra ← arg contra_sort_code;
  append [Str "CONTRA"; Str name; Str contra; Str account; Str amount;
          Str ""; Str ""; Str ""];;
  append [Str "EOF1"; Str "End of File"; Str ""; Str ""; Str ""; Str ""; Str ""; Str ""];;
  append [Str "EOF2"; Str "Checksum"; Str ""; Str ""; Str ""; Str ""; Str ""; Str ""];;
  append [Str "UTL1"; Str "Processing Complete"; Str ""; Str ""; Str ""; Str ""; Str ""; Str ""];;
  (* Write records to the in-memory buffer *)
  l ← new (StringIO "");
  assign (set_output l);;
  l ← read "records" records;
  rs ← list_at l;
  write (writerows rs);;
  l ← read "output" output;
  buffer_at l.

(** A call on the objects [h]. *)
Definition call (h : gmap loc object) (a : args) (now : datetime)
  : result string * state :=
  process_csv (entry h a now).

(** ** The state a call leaves, in closed form *)

(** Where the call puts the list [records] and the buffer [output]. *)
Definition records_at (h : gmap loc object) : loc := fresh (dom h).

Definition output_at (h : gmap loc object) : loc :=
  fresh ({[records_at h]} ∪ dom h).

End heap.
End Heap.

(** ** The two embeddings side by side *)

Section image.
Context {number : Type} `{!Numeric number}.

(** The arguments on values behind arguments on the heap, the DataFrame
    behind the reference being [d]. *)
Definition arguments_of (d : @DataFrame number) (a : Heap.args) : @args number :=
  {| df := d; debtor_name := Heap.debtor_name a;
     debtor_account := Heap.debtor_account a; batch_id := Heap.batch_id a;
     contra_sort_code := Heap.contra_sort_code a |}.

(** The state on the heap that a frame on values describes, for a call
    entered on the objects [h] with the arguments [a]: the list [records]
    and the buffer [output], once bound, are the two objects made by the
    call, and every other object is as in [h]. *)
Definition image (h : gmap Heap.loc (@Heap.object number)) (a : Heap.args)
    (σ : @frame number) : @Heap.state number :=
  let h1 := match records (vars σ) with
            | Some recs => <[Heap.records_at h := Heap.ListObject recs]> h
            | None => h
            end in
  {| Heap.objects := match output (vars σ) with
                     | Some text => <[Heap.output_at h := Heap.StringIO text]> h1
                     | None => h1
                     end;
     Heap.arguments := a;
     Heap.clock := clock σ;
     Heap.vars :=
       {| Heap.missing := missing (vars σ);
          Heap.today := today (vars σ);
          Heap.records := (λ _, Heap.records_at h) <$> records (vars σ);
          Heap.amount_val := amount_val (vars σ);
          Heap.amount_valu := amount_valu (vars σ);
          Heap.total_ammount := total_ammount (vars σ);
          Heap.output := (λ _, Heap.output_at h) <$> output (vars σ) |} |}.

End image.

(** ** A reference instance of the numbers: exact decimals

    Plain decimal numerals (an optional sign, digits, an optional point)
    with exact addition and round-half-even formatting.  It serves to run
    the model on concrete datasets. *)

Module Decimal.

(** [coef] / 10 ^ [places]. *)
Record decimal : Type := { coef : Z; places : nat }.

Fixpoint scan (s : string) (point : bool) (c : Z) (p n : nat) : option decimal :=
  match s with
  | EmptyString =>
      match n with O => None | S _ => Some {| coef := c; places := p |} end
  | String ch s' =>
      if is_digit ch then
        scan s' point (10 * c + digit_val ch)%Z (if point then S p else p) (S n)
      else if Ascii.eqb ch "." && negb point then scan s' true c p n
      else None
  end.

Definition negate (d : decimal) : decimal :=
  {| coef := - coef d; places := places d |}.

Definition parse (s : string) : option decimal :=
  match s with
  | String "-" s' => negate <$> scan s' false 0 0 0
  | String "+" s' => scan s' false 0 0 0
  | _ => scan s false 0 0 0
  end.

Definition scale (d : decimal) (p : nat) : Z :=
  coef d * 10 ^ Z.of_nat (p - places d).

Definition add (a b : decimal) : decimal :=
  let p := (places a `max` places b)%nat in
  {| coef := scale a p + scale b p; places := p |}.

Definition sum (xs : list decimal) : decimal :=
  foldl add {| coef := 0; places := 0 |} xs.

Definition digitN (n : N) : ascii := ascii_of_N (48 + n `mod` 10).

Fixpoint digits (fuel : nat) (n : N) (acc : string) : string :=
  match fuel with
  | O => acc
  | S fuel' =>
      let acc' := String (digitN n) acc in
      if (n `div` 10 =? 0)%N then acc' else digits fuel' (n `div` 10)%N acc'
  end.

Definition str_N (n : N) : string := digits (S (N.to_nat (N.log2 n))) n "".

Fixpoint last_digits (k : nat) (n : N) : string :=
  match k with
  | O => ""
  | S k' => last_digits k' (n `div` 10)%N +:+ String (digitN n) ""
  end.

Definition round_half_even (n m : Z) : Z :=
  let q := (n `div` m)%Z in
  let r := (n `mod` m)%Z in
  if (2 * r <? m)%Z then q
  else if (m <? 2 * r)%Z then (q + 1)%Z
  else if Z.even q then q else (q + 1)%Z.

Definition hundredths (d : decimal) : Z :=
  if (places d <=? 2)%nat then scale d 2
  else round_half_even (coef d) (10 ^ Z.of_nat (places d - 2)).

Definition sign (d : decimal) : string :=
  if (coef d <? 0)%Z then "-" else "".

Definition fixed (d : decimal) (units : Z) (p : nat) : string :=
  let n := Z.abs_N units in
  sign d +:+ str_N (n `div` 10 ^ N.of_nat p)%N +:+ "." +:+ last_digits p n.

Definition format (d : decimal) : string := fixed d (hundredths d) 2.

Definition str (d : decimal) : string :=
  match places d with
  | O => sign d +:+ str_N (Z.abs_N (coef d))
  | S _ => fixed d (coef d) (places d)
  end.

#[export] Instance numeric : Numeric decimal := {|
  float_of_str := parse;
  column_sum := sum;
  format_2f := format;
  str_of_number := str;
  zero_float := {| coef := 0; places := 1 |};
|}.

End Decimal.

(** ** Exact arithmetic

    The arithmetic sum of the amounts and its rendering on two decimals,
    over the rationals.  Binary floating point rounds its sums and 64-bit
    integers wrap around; [Exact] is the condition under which neither
    happens: every number stands for a rational, the column sum for the sum
    of the rationals, and the format [.2f] renders the rational. *)

(** The format specification [.2f] on a rational: the hundredths nearest to
    it, a tie going to the even one, after the sign of a negative number. *)
Definition two_decimals (q : Q) : string :=
  let h := Z.abs_N (Decimal.round_half_even (100 * Qnum q) (QDen q)) in
  (if (Qnum q <? 0)%Z then "-" else "")
  +:+ Decimal.str_N (h `div` 100)%N +:+ "." +:+ Decimal.last_digits 2 h.

Definition arithmetic_sum (qs : list Q) : Q := foldr Qplus 0%Q qs.

Class Exact (number : Type) `{!Numeric number} := {
  exact : number → Q;
  column_sum_exact : ∀ xs : list number,
    Qeq (exact (column_sum xs)) (arithmetic_sum (exact <$> xs));
  format_2f_exact : ∀ x : number, format_2f x = two_decimals (exact x);
}.

(** The rational a decimal stands for. *)
Definition decimal_value (d : Decimal.decimal) : Q :=
  Qmake (Decimal.coef d) (Z.to_pos (10 ^ Z.of_nat (Decimal.places d))).

(** ** Datasets for the reference instance *)

Module Examples.
Import Decimal.
#[local] Abbreviation value := (@value decimal).
#[local] Abbreviation args := (@args decimal).

Definition labels : list string :=
  ["beneficiary_name"; "beneficiary_sort_code"; "beneficiary_account";
   "amount"; "payment_reference"; "processing_date"].

Definition payment (name sort_code account amount reference date : value)
  : gmap string value :=
  list_to_map [("beneficiary_name", name); ("beneficiary_sort_code", sort_code);
               ("beneficiary_account", account); ("amount", amount);
               ("payment_reference", reference); ("processing_date", date)].

Definition batch (rs : list (gmap string value)) : args :=
  {| df := {| columns := labels; rows := rs |};
     debtor_name := "ABC Ltd"; debtor_account := "12345678";
     batch_id := "001"; contra_sort_code := "12-34-56" |}.

(** 150.5 and 10.00 as numbers. *)
Definition n150_5 : decimal := {| coef := 1505; places := 1 |}.
Definition n10 : decimal := {| coef := 1000; places := 2 |}.

(** The dataset of the example of the specification, every cell text but
    the amount. *)
Definition smith : args :=
  batch [payment (Str "J Smith") (Str "11-22-33") (Str "87654321") (Num n150_5)
           (Str "INV001") (Str "2024-01-15")].

(** The same row as [read_csv] types it: the account number is an integer. *)
Definition smith_typed : args :=
  batch [payment (Str "J Smith") (Str "11-22-33")
           (Num {| coef := 87654321; places := 0 |}) (Num n150_5)
           (Str "INV001") (Str "2024-01-15")].

(** The same row with the amount kept as the text 150.5. *)
Definition smith_text : args :=
  batch [payment (Str "J Smith") (Str "11-22-33") (Str "87654321") (Str "150.5")
           (Str "INV001") (Str "2024-01-15")].

(** A first row whose amount is no numeral. *)
Definition bad_first : args :=
  batch [payment (Str "J Smith") (Str "11-22-33") (Str "87654321") (Str "abc")
           (Str "INV001") (Str "2024-01-15")].

(** A text column: a numeral, then text that is no numeral. *)
Definition bad_second : args :=
  batch [payment (Str "J Smith") (Str "11-22-33") (Str "87654321") (Str "10.00")
           (Str "INV001") (Str "2024-01-15");
         payment (Str "A Jones") (Str "44-55-66") (Str "11223344") (Str "abc")
           (Str "INV002") (Str "2024-01-16")].

(** A row whose amount is missing. *)
Definition jones : gmap string value :=
  payment (Str "A Jones") (Str "44-55-66") (Str "11223344") NoneVal
    (Str "INV002") (Str "2024-01-16").


(** A number, then a missing amount. *)
Definition missing_second : args :=
  batch [payment (Str "J Smith") (Str "11-22-33") (Str "87654321") (Num n10)
           (Str "INV001") (Str "2024-01-15");
         jones].

(** A dataset without the column [amount]. *)
Definition no_amount : args :=
  {| df := {| columns := ["beneficiary_name"; "beneficiary_sort_code";
                          "beneficiary_account"; "payment_reference";
                          "processing_date"];
              rows := [list_to_map
                         [("beneficiary_name", Str "J Smith");
                          ("beneficiary_sort_code", Str "11-22-33");
                          ("beneficiary_account", Str "87654321");
                          ("payment_reference", Str "INV001");
                          ("processing_date", Str "2024-01-15")]] |};
     debtor_name := "ABC Ltd"; debtor_account := "12345678";
     batch_id := "001"; contra_sort_code := "12-34-56" |}.

(** Two instants of 15 January 2024. *)
Definition morning : datetime :=
  {| year := 2024; month := 1; day := 15;
     hour := 9; minute := 30; second := 0; microsecond := 0 |}.

Definition evening : datetime :=
  {| year := 2024; month := 1; day := 15;
     hour := 18; minute := 5; second := 42; microsecond := 7 |}.

(** What the calls on [smith] and [smith_typed] return and build. *)
Definition returned_text (r : result string) : string :=
  match r with
  | Ok text => text
  | Raise _ => ""
  end.

Definition smith_out : string :=
  Eval vm_compute in returned_text (call smith morning).1.

Definition smith_records : list record :=
  Eval vm_compute in default [] (records (vars (call smith morning).2)).

Definition typed_out : string :=
  Eval vm_compute in returned_text (call smith_typed morning).1.

Definition typed_records : list record :=
  Eval vm_compute in default [] (records (vars (call smith_typed morning).2)).

Definition typed_parsed : list (list string) :=
  Eval vm_compute in default [] (reader field_size_limit typed_out).

End Examples.

(** * The page: [main] (lines 77-121)

    Streamlit runs [main] from top to bottom each time the page is loaded
    or a widget is used.  A run reads the widgets' state and the uploaded
    file and lays elements out on the page; [pd.read_csv] and the texts of
    the exceptions are the host's. *)

(** What the page is run on: [pd.read_csv] on an uploaded file (a DataFrame
    or an exception), [str] of its exceptions, the order in which a set of
    column labels is iterated, and [str] of the exceptions that the calls
    of [process_csv] into pandas and Python raise. *)
Class Host (number file read_error : Type) := {
  read_csv : file → read_error + @DataFrame number;
  str_read_error : read_error → string;
  iterate : gset string → list string;
  iterate_elements : ∀ m, iterate m ≡ₚ elements m;
  str_raised : exn → string
}.

(** The body of the [st.write] call of lines 79-91. *)
Definition introduction : string :=
  String.concat (String LF EmptyString)
    ["";
     "    This app converts a CSV file with transaction details";
     "    into a Standard 18 BACS file format compatible with HSBC.";
     "    ";
     "    **Input CSV Requirements:**  ";
     "    The CSV file must contain the following columns (with exact names):";
     "      - beneficiary_name  ";
     "      - beneficiary_sort_code  ";
     "      - beneficiary_account  ";
     "      - amount  ";
     "      - payment_reference  ";
     "      - processing_date  ";
     "    "].

Section page.
Context {number : Type} `{!Numeric number}.
Context {file read_error : Type} `{!Host number file read_error}.
#[local] Abbreviation DataFrame := (@DataFrame number).

(** The elements a run lays out. *)
Inductive element :=
  | Title (body : string)
  | Write (body : string)
  | TextInput (label value : string)
  | FileUploader (label : string) (type : list string)
  | Subheader (body : string)
  | Dataframe (data : DataFrame)
  | Button (label : string)
  | Success (body : string)
  | DownloadButton (label data file_name mime : string)
  | Error (body : string).

(** The state a run reads: the text entered in the text inputs, by label,
    where the user has changed them; the file uploaded, if any; the button
    whose click started the run, if any; the clock. *)
Record session := {
  entered : gmap string string;
  uploaded : option file;
  clicked : option string;
  started : datetime
}.

(** What the [try] of [main] can catch. *)
Inductive exception :=
  | ReadCsv (e : read_error)
  | Process (e : exn).

(** [str(e)]: the text of line 36 for the column check. *)
Definition str_exception (e : exception) : string :=
  match e with
  | ReadCsv e => str_read_error e
  | Process (MissingColumns missing) =>
      "Missing required columns: " +:+ String.concat ", " (iterate missing)
  | Process e => str_raised e
  end.

(** A run: it reads the session, appends to the page, and returns or
    raises. *)
Definition UI (A : Type) : Type :=
  session → list element → (exception + A) * list element.

#[export] Instance UI_ret : MRet UI := λ A x _ page, (inr x, page).
#[export] Instance UI_bind : MBind UI := λ A B k m s page,
  match m s page with
  | (inr x, page') => k x s page'
  | (inl e, page') => (inl e, page')
  end.

Definition show (e : element) : UI unit := λ _ page, (inr (), page ++ [e]).

Definition st_title (body : string) : UI unit := show (Title body).
Definition st_write (body : string) : UI unit := show (Write body).
Definition st_subheader (body : string) : UI unit := show (Subheader body).
Definition st_dataframe (data : DataFrame) : UI unit := show (Dataframe data).
Definition st_success (body : string) : UI unit := show (Success body).
Definition st_error (body : string) : UI unit := show (Error body).

(** [st.text_input(label, value=...)]: the text entered, the default until
    the user changes it. *)
Definition st_text_input (label value : string) : UI string := λ s page,
  let text := default value (entered s !! label) in
  (inr text, page ++ [TextInput label text]).

Definition st_file_uploader (label : string) (type : list string)
  : UI (option file) := λ s page,
  (inr (uploaded s), page ++ [FileUploader label type]).

(** [st.button(label)]: True in the run its click started. *)
Definition st_button (label : string) : UI bool := λ s page,
  (inr (bool_decide (clicked s = Some label)), page ++ [Button label]).

Definition st_download_button (label data file_name mime : string) : UI bool :=
  λ s page,
  (inr (bool_decide (clicked s = Some label)),
   page ++ [DownloadButton label data file_name mime]).

Definition pd_read_csv (f : file) : UI DataFrame := λ _ page,
  (match read_csv f with
   | inl e => inl (ReadCsv e)
   | inr d => inr d
   end, page).

(** The call of [process_csv] at line 112, in a frame of its own. *)
Definition call_process_csv (d : DataFrame)
    (name account batch sort_code : string) : UI string := λ s page,
  (match (call {| df := d; debtor_name := name; debtor_account := account;
                  batch_id := batch; contra_sort_code := sort_code |}
               (started s)).1 with
   | Ok text => inr text
   | Raise e => inl (Process e)
   end, page).

(** [try: body except Exception as e: handler] *)
Definition try_catch (body : UI unit) (handler : exception → UI unit) : UI unit :=
  λ s page,
  match body s page with
  | (inl e, page') => handler e s page'
  | (inr x, page') => (inr x, page')
  end.

Definition main : UI unit :=
  st_title "BACS File Generator";;
  st_write introduction;;
  debtor_name ← st_text_input "Enter Debtor (Your Organization) Name" "ABC Ltd";
  debtor_account ← st_text_input "Enter Debtor Account Number" "12345678";
  batch_id ← st_text_input "Enter Payment Batch ID" "001";
  contra_sort_code ← st_text_input "Enter Contra Sort Code" "12-34-56";
  uploaded_file ← st_file_uploader "Upload your CSV file" ["csv"];
  match uploaded_file with
  | Some f =>
      try_catch
        (d ← pd_read_csv f;
         st_subheader "Input CSV Preview";;
         st_dataframe d;;
         pressed ← st_button "Generate BACS File";
         if pressed : bool then
           bacs_csv ← call_process_csv d debtor_name debtor_account batch_id
                        contra_sort_code;
           st_success "BACS file generated successfully!";;
           st_download_button "Download BACS File" bacs_csv "bacs_file.csv"
             "text/csv";;
           mret ()
         else mret ())
        (λ e, st_error ("Error processing the file: " +:+ str_exception e))
  | None => mret ()
  end.

(** A run of the page, from the empty page. *)
Definition run (s : session) : (exception + unit) * list element := main s [].

(** ** A run in closed form

    [run_layout] below proves that [main] lays out [layout]. *)

(** The text a text input returns. *)
Definition input_text (s : session) (label value : string) : string :=
  default value (entered s !! label).

(** The arguments of the call of line 112. *)
Definition request (s : session) (d : DataFrame) : args :=
  {| df := d;
     debtor_name := input_text s "Enter Debtor (Your Organization) Name" "ABC Ltd";
     debtor_account := input_text s "Enter Debtor Account Number" "12345678";
     batch_id := input_text s "Enter Payment Batch ID" "001";
     contra_sort_code := input_text s "Enter Contra Sort Code" "12-34-56" |}.

(** The elements every run lays out first. *)
Definition form (s : session) : list element :=
  [ Title "BACS File Generator";
    Write introduction;
    TextInput "Enter Debtor (Your Organization) Name"
      (input_text s "Enter Debtor (Your Organization) Name" "ABC Ltd");
    TextInput "Enter Debtor Account Number"
      (input_text s "Enter Debtor Account Number" "12345678");
    TextInput "Enter Payment Batch ID" (input_text s "Enter Payment Batch ID" "001");
    TextInput "Enter Contra Sort Code" (input_text s "Enter Contra Sort Code" "12-34-56");
    FileUploader "Upload your CSV file" ["csv"] ].

Definition preview (d : DataFrame) : list element :=
  [ Subheader "Input CSV Preview"; Dataframe d; Button "Generate BACS File" ].

Definition report (e : exception) : element :=
  Error ("Error processing the file: " +:+ str_exception e).

(** What a run lays out below the form. *)
Definition below (s : session) : list element :=
  match uploaded s with
  | None => []
  | Some f =>
      match read_csv f with
      | inl e => [report (ReadCsv e)]
      | inr d =>
          preview d ++
          if bool_decide (clicked s = Some "Generate BACS File") then
            match (call (request s d) (started s)).1 with
            | Ok text =>
                [ Success "BACS file generated successfully!";
                  DownloadButton "Download BACS File" text "bacs_file.csv" "text/csv" ]
            | Raise e => [report (Process e)]
            end
          else []
      end
  end.

Definition layout (s : session) : list element := form s ++ below s.

End page.

(** ** Sessions of the reference instance *)

Module Sessions.
Import Decimal Examples.

(** An uploaded file that [pd.read_csv] reads as a dataset, or one without
    content. *)
Inductive upload := Parsed (d : @DataFrame decimal) | Empty.

#[export] Instance host : Host decimal upload unit := {|
  read_csv f := match f with Parsed d => inr d | Empty => inl () end;
  str_read_error _ := "No columns to parse from file";
  iterate := elements;
  iterate_elements m := reflexivity (elements m);
  str_raised e :=
    match e with
    | UnboundLocalError name =>
        "cannot access local variable '" +:+ name
        +:+ "' where it is not associated with a value"
    | KeyError key => "'" +:+ key +:+ "'"
    | ValueError => "Unknown format code 'f' for object of type 'str'"
    | TypeError => "unsupported operand type(s) for +: 'float' and 'str'"
    | MissingColumns _ => ""
    end
|}.

Definition generate : option string := Some "Generate BACS File".

(** The defaults kept, the dataset [smith] uploaded, the button clicked. *)
Definition smith_clicked : @session upload :=
  {| entered := ∅; uploaded := Some (Parsed (df smith));
     clicked := generate; started := morning |}.

(** The same after a click on the download button. *)
Definition smith_downloaded : @session upload :=
  {| entered := ∅; uploaded := Some (Parsed (df smith));
     clicked := Some "Download BACS File"; started := morning |}.

(** A debtor name entered, a dataset without amount column uploaded. *)
Definition no_amount_clicked : @session upload :=
  {| entered := {["Enter Debtor (Your Organization) Name" := "XYZ plc"]};
     uploaded := Some (Parsed (df no_amount));
     clicked := generate; started := morning |}.

(** A file without content uploaded. *)
Definition empty_uploaded : @session upload :=
  {| entered := ∅; uploaded := Some Empty; clicked := None; started := morning |}.

(** The dataset [batch] without its rows. *)
Definition no_rows : @args decimal :=
  {| df := {| columns := columns (df smith); rows := [] |};
     debtor_name := "ABC Ltd"; debtor_account := "12345678";
     batch_id := "001"; contra_sort_code := "12-34-56" |}.

(** The objects of a caller: a list of its own and, at location 5, the
    DataFrame of [bad_second]; and the arguments that pass this DataFrame
    by reference. *)
Definition caller_objects : gmap Heap.loc (@Heap.object decimal) :=
  {[ 1%positive := Heap.ListObject [[Str "kept"]];
     5%positive := Heap.DataFrameObject (df bad_second) ]}.

Definition by_reference : Heap.args :=
  {| Heap.df := 5%positive; Heap.debtor_name := "ABC Ltd";
     Heap.debtor_account := "12345678"; Heap.batch_id := "001";
     Heap.contra_sort_code := "12-34-56" |}.

(** The reference number system with another literal for 0.0. *)
Definition numeric_one : Numeric decimal :=
  {| float_of_str := @float_of_str _ numeric;
     column_sum := @column_sum _ numeric;
     format_2f := @format_2f _ numeric;
     str_of_number := @str_of_number _ numeric;
     zero_float := {| coef := 1; places := 0 |} |}.

End Sessions.

(** ** Proof automation *)

(** Unfolding the operations of the two monads. *)
Ltac unfold_M :=
  unfold mbind, mret, M_bind, M_ret, result_bind, result_ret,
    try_except, lift, assign, read, append, write, raise, arg, datetime_today in *.

(** A case analysis on the next item lookup, or on an optional variable. *)
Ltac case_getitem :=
  match goal with
  | |- context [getitem ?r ?k] => destruct (getitem r k); cbn
  | |- context [match ?o with Some _ => _ | None => _ end] =>
      is_var o; destruct o; cbn
  end.

(** ** The program and its closed form agree *)

Section call_outcome.
Context {number : Type} `{!Numeric number}.
#[local] Abbreviation value := (@value number).
#[local] Abbreviation DataFrame := (@DataFrame number).
#[local] Abbreviation args := (@args number).

Lemma pay_row_run row a now recs av avu tot out :
  pay_row row (frame_at a now recs av avu tot out) =
  let '(av', avu') := try_amount row av avu in
  match pay_record row av' with
  | Ok r => (Ok (), frame_at a now (recs ++ [r]) av' avu' tot out)
  | Raise e => (Raise e, frame_at a now recs av' avu' tot out)
  end.
Proof.
  unfold pay_row, try_amount, parsed_amount, pay_record.
  destruct (getitem row "amount" ≫= float) as [x|e]; unfold_M; cbn;
    repeat first [reflexivity | case_getitem].
Qed.

Lemma for_each_pay_row rs : ∀ a now recs av avu tot out,
  for_each rs pay_row (frame_at a now recs av avu tot out) =
  match run_rows rs recs av avu with
  | (r, (recs', av', avu')) => (r, frame_at a now recs' av' avu' tot out)
  end.
Proof.
  induction rs as [|row rs IH]; intros; [reflexivity|].
  cbn [for_each run_rows]. unfold mbind at 1, M_bind at 1.
  rewrite pay_row_run. destruct (try_amount row av avu) as [av' avu'].
  destruct (pay_record row av'); [apply IH | reflexivity].
Qed.

Theorem call_outcome a now : call a now = outcome a now.
Proof.
  unfold call, outcome, process_csv, check_columns. cbv zeta.
  repeat (unfold_M; cbn -[strftime_Ymd for_each column series_sum writerows issubset]).
  destruct (issubset required_cols (columns (df a))) eqn:Hcols.
  - repeat (unfold_M; cbn -[strftime_Ymd for_each column series_sum writerows]).
    change (for_each (rows (df a)) pay_row ?σ) with
      (for_each (rows (df a)) pay_row
         (frame_at a now (header_block a (strftime_Ymd now)) None None None None)).
    rewrite for_each_pay_row.
    destruct (run_rows _ _ _ _) as [[u|e] [[recs av] avu]]; [|reflexivity].
    destruct (column (df a) "amount") as [vs|e]; [|reflexivity].
    cbn -[strftime_Ymd for_each column series_sum writerows].
    destruct (series_sum vs) as [total|e]; [|reflexivity].
    cbn -[strftime_Ymd for_each column series_sum writerows].
    destruct (format_total total) as [amount|e]; [|reflexivity].
    cbn -[strftime_Ymd for_each column series_sum writerows].
    repeat (unfold_M; cbn -[strftime_Ymd for_each column series_sum writerows]).
    unfold frame_at, contra_record, trailer_block.
    rewrite <- !app_assoc. reflexivity.
  - reflexivity.
Qed.

End call_outcome.

(** ** The reader undoes the writer *)

Section csv_round_trip.

Lemma append_empty_l (s : string) : "" +:+ s = s.
Proof. reflexivity. Qed.

Lemma append_cons (c : ascii) (s t : string) : String c s +:+ t = String c (s +:+ t).
Proof. reflexivity. Qed.

Lemma append_empty_r (s : string) : s +:+ "" = s.
Proof. induction s as [|c s IH]; [done|]. by rewrite append_cons, IH. Qed.

Lemma append_assoc (s t u : string) : (s +:+ t) +:+ u = s +:+ t +:+ u.
Proof. induction s as [|c s IH]; [done|]. by rewrite !append_cons, IH. Qed.

(** The reader in state [st], holding the pending field [fld], the fields
    [fs] of the record under way and the records [ret] already returned. *)
Local Abbreviation at_state st fld fs ret :=
  {| machine := {| state := st; field := fld; fields := fs |}; returned := ret |}.

Lemma length_append (s t : string) :
  String.length (s +:+ t) = String.length s + String.length t.
Proof.
  induction s as [|c s IH]; [done|].
  rewrite append_cons. cbn [String.length]. rewrite IH. done.
Qed.

Lemma special_false (c : ascii) :
  special c = false →
  Ascii.eqb c comma = false ∧ Ascii.eqb c dquote = false ∧
  Ascii.eqb c CR = false ∧ Ascii.eqb c LF = false.
Proof. unfold special. intros Hc. repeat apply orb_false_elim in Hc as [Hc ?]. done. Qed.

Lemma unterminated_app (s t : string) :
  t ≠ "" → unterminated (s +:+ t) = unterminated t.
Proof.
  intros Ht. induction s as [|c s IH]; [done|].
  rewrite append_cons. cbn [unterminated]. rewrite IH.
  destruct (s +:+ t) eqn:Hst; [|done].
  destruct s; [by rewrite append_empty_l in Hst|done].
Qed.

Lemma unterminated_write_text (rs : list (list string)) :
  unterminated (write_text rs) = false.
Proof.
  induction rs as [|r rs IH]; [done|]. cbn [write_text foldr]. fold (write_text rs).
  destruct (write_text rs) eqn:Hrs.
  - rewrite append_empty_r. unfold writerow. by rewrite unterminated_app.
  - by rewrite unterminated_app.
Qed.

Section limit.
Variable limit : N.

Lemma feed_app (s t : string) : ∀ p,
  feed limit p (s +:+ t) = feed limit p s ≫= λ p', feed limit p' t.
Proof.
  induction s as [|c s IH]; intros p; [done|].
  rewrite append_cons. cbn [feed].
  destruct (parse_process_char limit (machine p) (Some c)) as [r|]; [|done]. cbn.
  destruct (if Ascii.eqb c LF then _ else _) as [p2|]; [|done]. cbn. apply IH.
Qed.

(** A field within the limit takes each of its characters. *)
Lemma add_char_fits st0 st fld fs c s :
  fits limit (fld +:+ String c s) = true →
  parse_add_char limit {| state := st0; field := fld; fields := fs |} c st
  = Some {| state := st; field := fld +:+ String c ""; fields := fs |}.
Proof.
  unfold fits, parse_add_char, field_len. cbn [field fields].
  rewrite length_append. cbn [String.length]. intros Hfit%N.leb_le.
  assert ((N.of_nat (String.length fld) <? limit)%N = true) as ->; [|done].
  apply N.ltb_lt. lia.
Qed.

Lemma fits_step fld c s :
  fits limit (fld +:+ String c s) = true →
  fits limit ((fld +:+ String c "") +:+ s) = true.
Proof. by rewrite append_assoc. Qed.

(** An unquoted field is read character by character. *)
Lemma feed_unquoted (s : string) : ∀ fld fs ret,
  has_special s = false → fits limit (fld +:+ s) = true →
  feed limit (at_state IN_FIELD fld fs ret) s
  = Some (at_state IN_FIELD (fld +:+ s) fs ret).
Proof.
  induction s as [|c s IH]; intros fld fs ret Hs Hfit.
  - by rewrite append_empty_r.
  - cbn [has_special] in Hs. apply orb_false_elim in Hs as [Hc Hs].
    apply special_false in Hc as (Hcomma & Hquote & Hcr & Hlf).
    cbn [feed]. unfold parse_process_char, is_newline. cbn [machine state].
    rewrite Hcomma, Hcr, Hlf. cbn [orb].
    rewrite (add_char_fits _ _ _ _ _ _ Hfit). cbn [mbind option_bind returned].
    rewrite (IH _ _ _ Hs (fits_step _ _ _ Hfit)).
    by rewrite append_assoc.
Qed.

(** Inside quotes every character is kept; a doubled quote is one quote, and
    the end of a line changes nothing. *)
Lemma feed_quoted (s : string) : ∀ fld fs ret,
  fits limit (fld +:+ s) = true →
  feed limit (at_state IN_QUOTED_FIELD fld fs ret) (double_quotes s)
  = Some (at_state IN_QUOTED_FIELD (fld +:+ s) fs ret).
Proof.
  induction s as [|c s IH]; intros fld fs ret Hfit.
  - by rewrite append_empty_r.
  - cbn [double_quotes]. destruct (Ascii.eqb c dquote) eqn:Hq.
    + apply Ascii.eqb_eq in Hq as ->. cbn [feed].
      unfold parse_process_char. cbn [machine state returned].
      change (Ascii.eqb dquote dquote) with true.
      change (Ascii.eqb dquote LF) with false.
      cbn [mbind option_bind set_state state field fields machine returned].
      unfold set_state. cbn [field fields].
      rewrite (add_char_fits _ _ _ _ _ _ Hfit). cbn [mbind option_bind].
      rewrite (IH _ _ _ (fits_step _ _ _ Hfit)). by rewrite append_assoc.
    + cbn [feed]. unfold parse_process_char at 1. cbn [machine state]. rewrite Hq.
      rewrite (add_char_fits _ _ _ _ _ _ Hfit). cbn [mbind option_bind returned].
      destruct (Ascii.eqb c LF); cbn;
        rewrite (IH _ _ _ (fits_step _ _ _ Hfit)); by rewrite append_assoc.
Qed.

Lemma feed_field (f : string) (fs : list string) (ret : list (list string)) :
  fits limit f = true →
  ∃ st, field_read st f ∧
    feed limit (at_state START_FIELD "" fs ret) (write_field f)
    = Some (at_state st f fs ret).
Proof.
  intros Hfit. unfold write_field. destruct (has_special f) eqn:Hf.
  - exists QUOTE_IN_QUOTED_FIELD. split; [by right; right|].
    cbn [feed]. cbn. unfold set_state. cbn.
    rewrite feed_app, feed_quoted by done. done.
  - destruct f as [|c f].
    + exists START_FIELD. split; [by left|done].
    + exists IN_FIELD. split; [by right; left|].
      cbn [has_special] in Hf. apply orb_false_elim in Hf as [Hc Hf].
      apply special_false in Hc as (Hcomma & Hquote & Hcr & Hlf).
      cbn [feed]. unfold parse_process_char, start_field, is_newline.
      cbn [machine state]. rewrite Hcomma, Hquote, Hcr, Hlf. cbn [orb].
      rewrite (add_char_fits _ _ "" _ _ _ Hfit). cbn [mbind option_bind returned].
      by rewrite (feed_unquoted _ _ _ _ Hf).
Qed.

Lemma feed_comma st f fs ret s :
  field_read st f →
  feed limit (at_state st f fs ret) (String comma s)
  = feed limit (at_state START_FIELD "" (fs ++ [f]) ret) s.
Proof. by intros [[-> ->]|[->| ->]]. Qed.

Lemma feed_lineterminator st f fs ret s :
  field_read st f →
  feed limit (at_state st f fs ret) (lineterminator +:+ s)
  = feed limit (at_state START_RECORD "" [] (ret ++ [fs ++ [f]])) s.
Proof. by intros [[-> ->]|[->| ->]]. Qed.

(** The fields of a row, from the start of a field to the end of the line. *)
Lemma feed_join_fields (fs : list string) : ∀ acc ret s,
  fs ≠ [] → forallb (fits limit) fs = true →
  feed limit (at_state START_FIELD "" acc ret)
    (join_fields fs +:+ lineterminator +:+ s)
  = feed limit (at_state START_RECORD "" [] (ret ++ [acc ++ fs])) s.
Proof.
  induction fs as [|f fs IH]; intros acc ret s Hne Hfit; [done|].
  cbn [forallb] in Hfit. apply andb_true_iff in Hfit as [Hf Hfs].
  destruct (feed_field f acc ret Hf) as (st & Hst & Hfeed).
  cbn [join_fields]. destruct fs as [|f' fs].
  - rewrite feed_app, Hfeed. cbn. by apply feed_lineterminator.
  - rewrite append_assoc, feed_app, Hfeed. cbn [mbind option_bind].
    rewrite append_cons, (feed_comma _ _ _ _ _ Hst), IH by done.
    by rewrite <- app_assoc.
Qed.

(** At the start of a record a character that is no newline starts a field. *)
Lemma feed_start_record c s ret :
  is_newline c = false →
  feed limit (at_state START_RECORD "" [] ret) (String c s)
  = feed limit (at_state START_FIELD "" [] ret) (String c s).
Proof.
  intros Hc. cbn [feed]. unfold parse_process_char. cbn. by rewrite Hc.
Qed.

Lemma feed_writerow (r : list string) (ret : list (list string)) (s : string) :
  forallb (fits limit) r = true →
  feed limit (at_state START_RECORD "" [] ret) (writerow r +:+ s)
  = feed limit (at_state START_RECORD "" [] (ret ++ [r])) s.
Proof.
  intros Hfit. unfold writerow. destruct r as [|f r]; [done|].
  destruct f as [|c f].
  - destruct r as [|f' r]; [done|].
    rewrite append_assoc.
    assert (∃ t, join_fields ("" :: f' :: r) +:+ lineterminator +:+ s = String comma t)
      as [t Ht] by (by eexists).
    rewrite Ht, feed_start_record, <- Ht by done.
    by rewrite feed_join_fields.
  - rewrite append_assoc.
    assert (∃ c' t, is_newline c' = false ∧
              join_fields (String c f :: r) +:+ lineterminator +:+ s = String c' t)
      as (c' & t & Hc' & Ht).
    { cbn [join_fields]. unfold write_field.
      destruct (has_special (String c f)) eqn:Hf.
      - exists dquote. destruct r; eexists; (split; [done|]);
          rewrite ?append_assoc, !append_cons; done.
      - exists c. cbn [has_special] in Hf. apply orb_false_elim in Hf as [Hc _].
        apply special_false in Hc as (_ & _ & Hcr & Hlf).
        destruct r; eexists; (split; [by unfold is_newline; rewrite Hcr, Hlf|]);
          rewrite ?append_assoc, !append_cons; done. }
    rewrite Ht, feed_start_record, <- Ht by done.
    by rewrite feed_join_fields.
Qed.

Lemma feed_write_text (rs : list (list string)) : ∀ ret,
  within_limit limit rs = true →
  feed limit (at_state START_RECORD "" [] ret) (write_text rs)
  = Some (at_state START_RECORD "" [] (ret ++ rs)).
Proof.
  induction rs as [|r rs IH]; intros ret Hfit; cbn [write_text foldr].
  - by rewrite app_nil_r.
  - cbn [within_limit forallb] in Hfit. apply andb_true_iff in Hfit as [Hr Hrs].
    fold (write_text rs). rewrite feed_writerow, IH by done. by rewrite <- app_assoc.
Qed.

(** The reader undoes the writer on rows whose fields are within the field
    limit. *)
Lemma reader_write_text (rs : list (list string)) :
  within_limit limit rs = true → reader limit (write_text rs) = Some rs.
Proof.
  intros Hfit. unfold reader, parse_reset.
  rewrite (feed_write_text rs [] Hfit). cbn. by rewrite unterminated_write_text.
Qed.

End limit.

(** A field over the limit is refused. *)
Lemma fits_mono (limit limit' : N) (f : string) :
  (limit ≤ limit')%N → fits limit f = true → fits limit' f = true.
Proof. unfold fits. intros Hle Hf%N.leb_le. apply N.leb_le. lia. Qed.

Lemma within_limit_mono (limit limit' : N) (rs : list (list string)) :
  (limit ≤ limit')%N → within_limit limit rs = true → within_limit limit' rs = true.
Proof.
  intros Hle. unfold within_limit. rewrite !forallb_forall.
  intros Hrs r Hr. specialize (Hrs r Hr). rewrite forallb_forall in *.
  intros f Hf. eapply fits_mono; [done|]. by apply Hrs.
Qed.

(** Some limit is large enough for given rows. *)
Lemma within_limit_exists (rs : list (list string)) :
  ∃ limit, within_limit limit rs = true.
Proof.
  assert (∀ r : list string, ∃ limit, forallb (fits limit) r = true) as Hrow.
  { induction r as [|f r [l IH]]; [by exists 0%N|].
    exists (N.max l (N.of_nat (String.length f))). cbn [forallb].
    apply andb_true_iff. split.
    - apply N.leb_le. lia.
    - rewrite forallb_forall in *. intros g Hg.
      eapply fits_mono; [|by apply IH]. lia. }
  induction rs as [|r rs [l IH]]; [by exists 0%N|].
  destruct (Hrow r) as [l' Hr]. exists (N.max l l').
  cbn [within_limit forallb]. apply andb_true_iff. split.
  - rewrite forallb_forall in *. intros f Hf. eapply fits_mono; [|by apply Hr]. lia.
  - eapply within_limit_mono; [|exact IH]. lia.
Qed.

(** What the reader accepts under one limit it reads alike under a larger
    one. *)
Lemma parse_add_char_mono (limit limit' : N) r c st r' :
  (limit ≤ limit')%N →
  parse_add_char limit r c st = Some r' → parse_add_char limit' r c st = Some r'.
Proof.
  intros Hle. unfold parse_add_char.
  destruct (field_len r <? limit)%N eqn:Hlen; [|done].
  apply N.ltb_lt in Hlen.
  assert ((field_len r <? limit')%N = true) as -> by (apply N.ltb_lt; lia). done.
Qed.

Lemma parse_process_char_mono (limit limit' : N) r c r' :
  (limit ≤ limit')%N →
  parse_process_char limit r c = Some r' → parse_process_char limit' r c = Some r'.
Proof.
  intros Hle. unfold parse_process_char, start_field.
  destruct (state r), c as [ch|]; try done;
    repeat match goal with
           | |- context [if ?b then _ else _] => destruct b; try done
           end;
    by apply parse_add_char_mono.
Qed.

Lemma end_of_line_mono (limit limit' : N) p p' :
  (limit ≤ limit')%N →
  end_of_line limit p = Some p' → end_of_line limit' p = Some p'.
Proof.
  intros Hle. unfold end_of_line.
  destruct (parse_process_char limit (machine p) None) as [r|] eqn:Hr; [|done].
  by rewrite (parse_process_char_mono _ _ _ _ _ Hle Hr).
Qed.

Lemma feed_mono (limit limit' : N) (s : string) : ∀ p p',
  (limit ≤ limit')%N → feed limit p s = Some p' → feed limit' p s = Some p'.
Proof.
  induction s as [|c s IH]; intros p p' Hle; [done|]. cbn [feed].
  destruct (parse_process_char limit (machine p) (Some c)) as [r|] eqn:Hr; [|done].
  rewrite (parse_process_char_mono _ _ _ _ _ Hle Hr). cbn [mbind option_bind].
  destruct (Ascii.eqb c LF).
  - destruct (end_of_line limit _) as [p2|] eqn:Hp2; [|done].
    rewrite (end_of_line_mono _ _ _ _ Hle Hp2). cbn [mbind option_bind]. by apply IH.
  - cbn [mbind option_bind]. by apply IH.
Qed.

Lemma reader_mono (limit limit' : N) text parsed :
  (limit ≤ limit')%N →
  reader limit text = Some parsed → reader limit' text = Some parsed.
Proof.
  intros Hle. unfold reader.
  destruct (feed limit _ text) as [p|] eqn:Hp; [|done].
  rewrite (feed_mono _ _ _ _ _ Hle Hp). cbn [mbind option_bind].
  destruct (unterminated text); [|done].
  destruct (end_of_line limit p) as [p'|] eqn:Hp'; [|done].
  by rewrite (end_of_line_mono _ _ _ _ Hle Hp').
Qed.

(** Whatever the limit, the reader returns no other rows than those
    written. *)
Lemma reader_write_text_sound (limit : N) (rs parsed : list (list string)) :
  reader limit (write_text rs) = Some parsed → parsed = rs.
Proof.
  intros Hread. destruct (within_limit_exists rs) as [l Hl].
  assert (reader (N.max limit l) (write_text rs) = Some rs) as Hrs.
  { apply reader_write_text. eapply within_limit_mono; [|exact Hl]. lia. }
  apply (reader_mono _ (N.max limit l)) in Hread; [congruence | lia].
Qed.

End csv_round_trip.

(** ** Exact arithmetic on the reference instance *)

Section exact_decimals.
Import Decimal.
Local Open Scope Z_scope.

(** Rounding to the nearest multiple depends on the quotient alone. *)
Lemma round_half_even_scale (a b k : Z) :
  0 < b → 0 < k → round_half_even (a * k) (b * k) = round_half_even a b.
Proof.
  intros Hb Hk. unfold round_half_even.
  rewrite Z.div_mul_cancel_r, Z.mul_mod_distr_r by lia.
  pose proof (Z.mod_pos_bound a b Hb) as Hr.
  assert ((2 * (a `mod` b * k) <? b * k) = (2 * (a `mod` b) <? b)) as ->.
  { destruct (Z.ltb_spec (2 * (a `mod` b * k)) (b * k)),
             (Z.ltb_spec (2 * (a `mod` b)) b); try done; nia. }
  assert ((b * k <? 2 * (a `mod` b * k)) = (b <? 2 * (a `mod` b))) as ->; [|done].
  destruct (Z.ltb_spec (b * k) (2 * (a `mod` b * k))),
           (Z.ltb_spec b (2 * (a `mod` b))); try done; nia.
Qed.

Lemma round_half_even_ratio (a b a' b' : Z) :
  0 < b → 0 < b' → a * b' = a' * b →
  round_half_even a b = round_half_even a' b'.
Proof.
  intros Hb Hb' Heq.
  rewrite <- (round_half_even_scale a b b'), <- (round_half_even_scale a' b' b) by done.
  by rewrite Heq, (Z.mul_comm b b').
Qed.


Lemma pow10_pos (n : nat) : 0 < 10 ^ Z.of_nat n.
Proof. apply Z.pow_pos_nonneg; lia. Qed.

Lemma decimal_value_den (d : decimal) :
  QDen (decimal_value d) = 10 ^ Z.of_nat (places d).
Proof. unfold decimal_value. cbn. apply Z2Pos.id, pow10_pos. Qed.

Lemma pow10_split (p q : nat) :
  (q ≤ p)%nat → 10 ^ Z.of_nat p = 10 ^ Z.of_nat (p - q) * 10 ^ Z.of_nat q.
Proof.
  intros Hle. rewrite <- Z.pow_add_r by lia. f_equal. lia.
Qed.

(** [Decimal.format] renders the rational on two decimals. *)
Lemma format_exact (d : decimal) : format d = two_decimals (decimal_value d).
Proof.
  unfold format, fixed, two_decimals, sign.
  rewrite decimal_value_den. change (Qnum (decimal_value d)) with (coef d).
  assert (hundredths d = round_half_even (100 * coef d) (10 ^ Z.of_nat (places d)))
    as ->; [|done].
  unfold hundredths, scale. destruct (Nat.leb_spec (places d) 2) as [Hle|Hgt].
  - rewrite (round_half_even_ratio _ _ (coef d * 10 ^ Z.of_nat (2 - places d)) 1);
      [|apply pow10_pos|lia|].
    + unfold round_half_even. rewrite Z.div_1_r, Z.mod_1_r. done.
    + change 100 with (10 ^ Z.of_nat 2). rewrite (pow10_split 2 (places d)) by done. lia.
  - symmetry. apply round_half_even_ratio; [apply pow10_pos..|].
    rewrite (pow10_split (places d) 2) by lia. change (10 ^ Z.of_nat 2) with 100. lia.
Qed.

(** [Decimal.add] adds the rationals, and [Decimal.sum] sums them. *)
Lemma add_exact (a b : decimal) :
  Qeq (decimal_value (add a b)) (Qplus (decimal_value a) (decimal_value b)).
Proof.
  unfold Qeq, Qplus. cbn [Qnum Qden].
  rewrite Pos2Z.inj_mul, !decimal_value_den. unfold decimal_value, add, scale. cbn [Qnum coef places].
  set (p := (places a `max` places b)%nat).
  pose proof (pow10_split p (places a) ltac:(lia)) as Ha.
  pose proof (pow10_split p (places b) ltac:(lia)) as Hb.
  transitivity (coef a * (10 ^ Z.of_nat (p - places a) * 10 ^ Z.of_nat (places a))
                  * 10 ^ Z.of_nat (places b)
                + coef b * (10 ^ Z.of_nat (p - places b) * 10 ^ Z.of_nat (places b))
                  * 10 ^ Z.of_nat (places a)); [ring|].
  rewrite <- Ha, <- Hb. ring.
Qed.

Lemma foldl_add_exact (xs : list decimal) : ∀ acc,
  Qeq (decimal_value (foldl add acc xs))
      (Qplus (decimal_value acc) (arithmetic_sum (decimal_value <$> xs))).
Proof.
  induction xs as [|x xs IH]; intros acc; cbn [foldl fmap list_fmap arithmetic_sum foldr].
  - by rewrite Qplus_0_r.
  - rewrite IH, add_exact. fold (arithmetic_sum (decimal_value <$> xs)).
    by rewrite Qplus_assoc.
Qed.

Lemma sum_exact (xs : list decimal) :
  Qeq (decimal_value (sum xs)) (arithmetic_sum (decimal_value <$> xs)).
Proof. unfold sum. rewrite foldl_add_exact. apply Qplus_0_l. Qed.

End exact_decimals.

(** The exact decimals add and format exactly. *)
#[export] Instance decimal_exact : @Exact Decimal.decimal Decimal.numeric :=
  @Build_Exact Decimal.decimal Decimal.numeric decimal_value sum_exact format_exact.

(** ** The call on the heap and the call on values *)

Section heap_simulation.
Context {number : Type} `{!Numeric number}.
#[local] Abbreviation value := (@value number).
#[local] Abbreviation DataFrame := (@DataFrame number).
#[local] Abbreviation heap := (gmap Heap.loc (@Heap.object number)).

Ltac unfold_H :=
  unfold Heap.append, Heap.write in *;
  unfold mbind, mret, Heap.M_bind, Heap.M_ret, result_bind, result_ret,
    Heap.try_except, Heap.lift, Heap.assign, Heap.read,
    Heap.raise, Heap.arg, Heap.datetime_today, Heap.update, Heap.list_at,
    Heap.buffer_at, Heap.new in *.

Lemma records_at_fresh (h : heap) l o : h !! l = Some o → l ≠ Heap.records_at h.
Proof.
  intros Hl ->. apply (is_fresh (dom h)). apply elem_of_dom. by eexists.
Qed.

Lemma output_at_fresh (h : heap) :
  Heap.output_at h ≠ Heap.records_at h ∧ ∀ l o, h !! l = Some o → l ≠ Heap.output_at h.
Proof.
  pose proof (is_fresh ({[Heap.records_at h]} ∪ dom h)) as Hfresh.
  fold (Heap.output_at h) in Hfresh. split.
  - intros Heq. apply Hfresh. rewrite Heq. set_solver.
  - intros l o Hl ->. apply Hfresh. apply elem_of_union_r, elem_of_dom. by eexists.
Qed.

(** The state in the loop: [records] is bound, [output] is not. *)
Local Abbreviation looping h a now t recs av avu tot :=
  {| Heap.objects := <[Heap.records_at h := Heap.ListObject recs]> h;
     Heap.arguments := a; Heap.clock := now;
     Heap.vars := {| Heap.missing := None; Heap.today := Some t;
                     Heap.records := Some (Heap.records_at h);
                     Heap.amount_val := av; Heap.amount_valu := avu;
                     Heap.total_ammount := tot; Heap.output := None |} |}.

Lemma append_run (h : heap) a now t recs av avu tot r :
  Heap.append r (looping h a now t recs av avu tot)
  = (Ok (), looping h a now t (recs ++ [r]) av avu tot).
Proof.
  unfold_H. cbn. rewrite lookup_insert_eq. cbn. by rewrite insert_insert_eq.
Qed.

Lemma dataframe_at_run (h : heap) l d a now t recs av avu tot :
  h !! l = Some (Heap.DataFrameObject d) →
  Heap.dataframe_at l (looping h a now t recs av avu tot)
  = (Ok d, looping h a now t recs av avu tot).
Proof.
  intros Hl. unfold Heap.dataframe_at. cbn.
  rewrite lookup_insert_ne by (symmetry; by eapply records_at_fresh). by rewrite Hl.
Qed.

Lemma pay_row_heap (h : heap) a now t row recs av avu tot :
  Heap.pay_row row (looping h a now t recs av avu tot) =
  let '(av', avu') := try_amount row av avu in
  match pay_record row av' with
  | Ok r => (Ok (), looping h a now t (recs ++ [r]) av' avu' tot)
  | Raise e => (Raise e, looping h a now t recs av' avu' tot)
  end.
Proof.
  unfold Heap.pay_row, try_amount, parsed_amount, pay_record.
  destruct (getitem row "amount" ≫= float) as [x|e];
    unfold mbind at 1, Heap.M_bind at 1; unfold Heap.try_except;
    unfold mbind at 1, Heap.M_bind at 1; unfold Heap.lift, Heap.assign; cbn.
  all: repeat (unfold mbind at 1, Heap.M_bind at 1, Heap.lift; cbn;
               match goal with
               | |- context [getitem ?r ?k] => destruct (getitem r k); cbn; [|reflexivity]
               | |- context [Heap.read "amount_val"] =>
                   unfold Heap.read; cbn;
                   match goal with
                   | |- context [match ?o with Some _ => _ | None => _ end] =>
                       is_var o; destruct o; cbn; [|reflexivity]
                   | _ => idtac
                   end
               end).
  all: try apply append_run.
Qed.

Lemma for_each_pay_row_heap (h : heap) a now t rs : ∀ recs av avu tot,
  Heap.for_each rs Heap.pay_row (looping h a now t recs av avu tot) =
  match run_rows rs recs av avu with
  | (r, (recs', av', avu')) => (r, looping h a now t recs' av' avu' tot)
  end.
Proof.
  induction rs as [|row rs IH]; intros; [reflexivity|].
  cbn [Heap.for_each run_rows]. unfold mbind at 1, Heap.M_bind at 1.
  rewrite pay_row_heap. destruct (try_amount row av avu) as [av' avu'].
  destruct (pay_record row av'); [apply IH | reflexivity].
Qed.

(** The call on the heap computes what the call on values computes, and
    leaves the state that the frame of the call on values describes: the
    objects it was entered on, the list [records] and the buffer
    [output]. *)
Lemma heap_call_image (h : heap) (a : Heap.args) (d : DataFrame) now :
  h !! Heap.df a = Some (Heap.DataFrameObject d) →
  Heap.call h a now
  = ((call (arguments_of d a) now).1, image h a (call (arguments_of d a) now).2).
Proof.
  intros Hd. rewrite call_outcome.
  pose proof (records_at_fresh h _ _ Hd) as Hrec.
  destruct (output_at_fresh h) as [Hout Hout'].
  pose proof (Hout' _ _ Hd) as Hdf. clear Hout'.
  unfold Heap.call, outcome, Heap.process_csv, Heap.check_columns, Heap.entry.
  unfold mbind at 1, Heap.M_bind at 1. unfold mbind at 1, Heap.M_bind at 1.
  unfold mbind at 1, Heap.M_bind at 1. unfold Heap.arg at 1. cbn [Heap.arguments].
  unfold Heap.dataframe_at at 1. cbn [Heap.objects]. rewrite Hd.
  cbn [arguments_of df].
  destruct (issubset required_cols (columns d)) eqn:Hcols.
  2:{ unfold_H. unfold Heap.dataframe_at. cbn [Heap.arguments Heap.objects].
      rewrite Hd. reflexivity. }
  unfold mret at 1, Heap.M_ret at 1.
  unfold_H.
  cbn -[strftime_Ymd Heap.for_each column series_sum writerows fresh dom insert lookup
        Heap.dataframe_at].
  fold (Heap.records_at h).
  repeat (rewrite lookup_insert_eq;
          cbn -[strftime_Ymd Heap.for_each column series_sum writerows fresh dom insert
                lookup Heap.dataframe_at]).
  rewrite !insert_insert_eq.
  unfold Heap.set_records, Heap.set_today, Heap.unbound.
  cbn -[strftime_Ymd Heap.for_each column series_sum writerows fresh dom insert
        lookup Heap.dataframe_at].
  rewrite (dataframe_at_run h (Heap.df a) d) by done.
  rewrite for_each_pay_row_heap.
  unfold header_block.
  cbn [arguments_of df debtor_name debtor_account batch_id contra_sort_code].
  destruct (run_rows _ _ _ _) as [[[]|e] [[recs av] avu]]; [|reflexivity].
  rewrite (dataframe_at_run h (Heap.df a) d) by done.
  destruct (column d "amount") as [vs|e]; [|reflexivity].
  destruct (series_sum vs) as [total|e]; [|reflexivity].
  destruct (format_total total) as [amount|e]; [|reflexivity].
  cbn -[strftime_Ymd column series_sum writerows fresh dom insert lookup].
  repeat (rewrite lookup_insert_eq;
          cbn -[strftime_Ymd column series_sum writerows fresh dom insert lookup]).
  rewrite !insert_insert_eq.
  rewrite dom_insert_L. fold (Heap.output_at h).
  rewrite lookup_insert_ne, lookup_insert_eq by done.
  cbn -[strftime_Ymd column series_sum writerows fresh dom insert lookup].
  rewrite lookup_insert_eq.
  cbn -[strftime_Ymd column series_sum writerows fresh dom insert lookup].
  rewrite lookup_insert_eq, insert_insert_eq.
  unfold image, frame_at, contra_record, trailer_block.
  cbn -[strftime_Ymd column series_sum writerows fresh dom insert lookup].
  rewrite <- !app_assoc. reflexivity.
Qed.

(** C10. A call leaves its inputs as they were, whether it returns or
    raises: the DataFrame behind the reference it was passed is the same
    object with the same content, every other object of the caller is as it
    was (the call changes only the list and the buffer it has made itself),
    and the reference and the four strings it was passed are unchanged.
    What it returns or raises is what the call on values computes from the
    content of the DataFrame. *)
Theorem C10_inputs_unchanged (h : heap) (a : Heap.args) (d : DataFrame) now :
  h !! Heap.df a = Some (Heap.DataFrameObject d) →
  let σ := (Heap.call h a now).2 in
  Heap.objects σ !! Heap.df a = Some (Heap.DataFrameObject d) ∧
  (∀ l o, h !! l = Some o → Heap.objects σ !! l = Some o) ∧
  Heap.arguments σ = a ∧
  (Heap.call h a now).1 = (call (arguments_of d a) now).1.
Proof.
  intros Hd σ. subst σ. rewrite (heap_call_image h a d now Hd). cbn [fst snd].
  assert (∀ l o, h !! l = Some o →
            Heap.objects (image h a (call (arguments_of d a) now).2) !! l = Some o)
    as Hkept.
  { intros l o Hl. unfold image. cbn [Heap.objects].
    pose proof (records_at_fresh h l o Hl) as Hrec.
    destruct (output_at_fresh h) as [_ Hout]. specialize (Hout l o Hl).
    destruct (output _) as [text|], (records _) as [recs|];
      rewrite ?lookup_insert_ne by done; done. }
  split; [by apply Hkept|]. split; [exact Hkept|]. done.
Qed.

End heap_simulation.

(** ** The loop *)

Section loop.
Context {number : Type} `{!Numeric number}.
#[local] Abbreviation value := (@value number).
#[local] Abbreviation DataFrame := (@DataFrame number).
#[local] Abbreviation args := (@args number).

Lemma try_amount_carried row av avu : (try_amount row av avu).1 = carried av row.
Proof. unfold try_amount, carried. by destruct (parsed_amount row). Qed.

Lemma getitem_ok (row : gmap string value) key v :
  getitem row key = Ok v → row !! key = Some v.
Proof. unfold getitem. destruct (row !! key); naive_solver. Qed.

Lemma pay_record_ok row av r :
  pay_record row av = Ok r → ∃ x, av = Some x ∧ pay_of row (format_2f x) r.
Proof.
  unfold pay_record, pay_of, mbind, mret, result_bind, result_ret.
  destruct (getitem row "beneficiary_name") as [name|] eqn:Hname; [|done].
  destruct (getitem row "beneficiary_sort_code") as [sort_code|] eqn:Hsort; [|done].
  destruct (getitem row "beneficiary_account") as [account|] eqn:Hacc; [|done].
  destruct av as [x|]; [|done].
  destruct (getitem row "payment_reference") as [reference|] eqn:Href; [|done].
  destruct (getitem row "processing_date") as [date|] eqn:Hdate; [|done].
  intros [= <-]. exists x. split; [done|].
  exists name, sort_code, account, reference, date.
  by repeat (split; [by apply getitem_ok|]).
Qed.

(** What the loop has appended when it stops, whether it ran to the end or
    raised: one PAY record for each row passed, in row order, its amount the
    value of [amount_val] at that row. *)
Lemma run_rows_spec rs : ∀ recs av avu res recs' av' avu',
  run_rows rs recs av avu = (res, (recs', av', avu')) →
  ∃ pays, recs' = recs ++ pays ∧ length pays ≤ length rs ∧
    (res = Ok () → length pays = length rs) ∧
    (∀ i r, pays !! i = Some r →
       ∃ row x, rs !! i = Some row ∧
         foldl carried av (take (S i) rs) = Some x ∧ pay_of row (format_2f x) r).
Proof.
  induction rs as [|row rs IH]; intros recs av avu res recs' av' avu' Hrun.
  - injection Hrun as <- <- <- <-. exists []. rewrite app_nil_r. naive_solver.
  - cbn [run_rows] in Hrun.
    pose proof (try_amount_carried row av avu) as Hcar.
    destruct (try_amount row av avu) as [av1 avu1]. cbn in Hcar. subst av1.
    destruct (pay_record row (carried av row)) as [r|e] eqn:Hpay.
    + apply IH in Hrun as (pays & -> & Hle & Hlen & Hpays).
      apply pay_record_ok in Hpay as (x & Hx & Hr).
      exists (r :: pays). rewrite <- app_assoc. cbn.
      split; [done|]. split; [lia|]. split; [intros ?; f_equal; auto|].
      intros [|i] r' Hi; cbn in Hi.
      * injection Hi as <-. exists row, x. by rewrite take_0.
      * apply Hpays in Hi as (row' & x' & Hrow & Hx' & Hr'). by exists row', x'.
    + injection Hrun as <- <- <- <-. exists []. rewrite app_nil_r. cbn.
      split; [done|]. split; [lia|]. done.
Qed.

End loop.

(** ** The properties of [process_csv] *)

Section claims.
Context {number : Type} `{!Numeric number}.
#[local] Abbreviation value := (@value number).
#[local] Abbreviation DataFrame := (@DataFrame number).
#[local] Abbreviation args := (@args number).

(** What a call that returns has built: the header block, the PAY records
    of the loop, the CONTRA record and the trailer block. *)
Lemma call_returns a now out σ :
  call a now = (Ok out, σ) →
  ∃ pays av avu total amount,
    let recs := (header_block a (strftime_Ymd now) ++ pays)
                ++ contra_record a amount :: trailer_block in
    issubset required_cols (columns (df a)) = true ∧
    run_rows (rows (df a)) (header_block a (strftime_Ymd now)) None None
      = (Ok (), (header_block a (strftime_Ymd now) ++ pays, av, avu)) ∧
    column (df a) "amount" ≫= series_sum = Ok total ∧
    format_total total = Ok amount ∧
    out = writerows recs ∧
    σ = frame_at a now recs av avu (Some total) (Some out).
Proof.
  rewrite call_outcome. unfold outcome.
  destruct (issubset _ _); [|done].
  destruct (run_rows _ _ _ _) as [[[]|e] [[recs av] avu]] eqn:Hrun; [|done].
  destruct (column (df a) "amount" ≫= series_sum) as [total|e] eqn:Hsum; [|done].
  destruct (format_total total) as [amount|e] eqn:Hfmt; [|done].
  intros [= <- <-].
  destruct (run_rows_spec _ _ _ _ _ _ _ _ Hrun) as (pays & -> & _).
  exists pays, av, avu, total, amount. cbv zeta. by repeat split.
Qed.

(** A call that returns has built N + 8 records for a dataset of N rows:
    VOL, HDR1, HDR2, UHL1 first, then at position 4 + i the PAY record of
    row i, then the CONTRA record, then EOF1, EOF2, UTL1. *)
Theorem returned_record_sequence a now out σ :
  call a now = (Ok out, σ) →
  ∃ recs,
    records (vars σ) = Some recs ∧ out = writerows recs ∧
    length recs = length (rows (df a)) + 8 ∧
    tag <$> take 4 recs = Some <$> [Str "VOL"; Str "HDR1"; Str "HDR2"; Str "UHL1"] ∧
    (∀ i row, rows (df a) !! i = Some row →
       ∃ x r, amount_at (rows (df a)) i = Some x ∧
         recs !! (4 + i) = Some r ∧ pay_of row (format_2f x) r) ∧
    tag <$> recs !! (4 + length (rows (df a))) = Some (Some (Str "CONTRA")) ∧
    tag <$> drop (5 + length (rows (df a))) recs
      = Some <$> [Str "EOF1"; Str "EOF2"; Str "UTL1"].
Proof.
  intros Hcall.
  apply call_returns in Hcall as (pays & av & avu & total & amount & Hcall).
  cbv zeta in Hcall. destruct Hcall as (_ & Hrun & _ & _ & -> & ->).
  apply run_rows_spec in Hrun as (pays' & Heq & _ & Hlen & Hpays).
  apply app_inv_head in Heq as <-. specialize (Hlen eq_refl).
  eexists. split; [reflexivity|]. split; [reflexivity|].
  split; [|split; [|split; [|split]]].
  - rewrite !length_app. cbn. lia.
  - reflexivity.
  - intros i row Hrow.
    assert (i < length pays) as Hi by (rewrite Hlen; by eapply lookup_lt_Some).
    destruct (lookup_lt_is_Some_2 pays i Hi) as [r Hr].
    destruct (Hpays i r Hr) as (row' & x & Hrow' & Hx & Hpay).
    assert (row' = row) as -> by congruence.
    exists x, r. split; [done|]. split; [|done].
    cbn. by apply lookup_app_l_Some.
  - cbn. rewrite <- Hlen.
    by erewrite (list_lookup_middle pays _ (contra_record a amount)).
  - cbn. rewrite <- Hlen.
    replace (S (length pays)) with (length pays + 1) by lia.
    by rewrite (drop_app_add pays (contra_record a amount :: trailer_block) 1).
Qed.

(** C2. When a required column is absent the call raises, reporting the
    required names that are no column labels, and it has built nothing:
    neither [records] nor [output] is bound. *)
Theorem C2_missing_columns a now :
  ¬ required_cols ⊆ list_to_set (columns (df a)) →
  let missing_cols : gset string := required_cols ∖ list_to_set (columns (df a)) in
  let σ := (call a now).2 in
  (call a now).1 = Raise (MissingColumns missing_cols) ∧
  missing_cols ≠ ∅ ∧
  (∀ c, c ∈ missing_cols ↔ c ∈ required_cols ∧ c ∉ columns (df a)) ∧
  records (vars σ) = None ∧ output (vars σ) = None ∧
  today (vars σ) = None ∧ arguments σ = a.
Proof.
  intros Hsub. cbv zeta. rewrite call_outcome. unfold outcome, issubset.
  rewrite bool_decide_eq_false_2 by done. cbn.
  split; [done|]. split; [|split; [|done]].
  - intros Hempty. apply Hsub. intros c Hc.
    destruct (decide (c ∈ (list_to_set (columns (df a)) : gset string))); [done|].
    assert (c ∈ required_cols ∖ list_to_set (columns (df a))) as Hin by set_solver.
    rewrite Hempty in Hin. set_solver.
  - intros c. rewrite elem_of_difference, elem_of_list_to_set. done.
Qed.

(** C8. The value returned, or the exception raised, depends on the clock
    through the calendar date only: two calls on the same arguments at two
    instants of one day end alike. *)
Theorem C8_same_date_same_output a now1 now2 :
  year now1 = year now2 → month now1 = month now2 → day now1 = day now2 →
  (call a now1).1 = (call a now2).1.
Proof.
  intros Hy Hm Hd.
  assert (strftime_Ymd now1 = strftime_Ymd now2) as Ht
    by (unfold strftime_Ymd; congruence).
  rewrite !call_outcome. unfold outcome. rewrite Ht.
  destruct (issubset _ _); [|done].
  destruct (run_rows _ _ _ _) as [[[]|e] [[recs av] avu]]; [|done].
  destruct (column (df a) "amount" ≫= series_sum) as [total|e]; [|done].
  by destruct (format_total total).
Qed.

End claims.

Section contra.
Context {number : Type} `{!Numeric number}.
#[local] Abbreviation value := (@value number).
#[local] Abbreviation DataFrame := (@DataFrame number).
#[local] Abbreviation args := (@args number).

(** A row of a rectangular DataFrame that has the required columns holds a
    cell under each of them. *)
Lemma rectangular_lookup (d : DataFrame) (row : gmap string value) key :
  required_cols ⊆ list_to_set (columns d) →
  rectangular d → row ∈ rows d → key ∈ required_cols →
  is_Some (row !! key).
Proof.
  intros Hsub Hrect Hrow Hkey. unfold rectangular in Hrect.
  rewrite Forall_forall in Hrect. apply Hrect in Hrow.
  apply elem_of_dom. rewrite Hrow. by apply Hsub.
Qed.

Lemma pay_record_complete (row : gmap string value) x :
  (∀ key, key ∈ required_cols → is_Some (row !! key)) →
  ∃ r, pay_record row (Some x) = Ok r.
Proof.
  intros Hrow.
  destruct (Hrow "beneficiary_name") as [name Hname]; [set_solver|].
  destruct (Hrow "beneficiary_sort_code") as [sort_code Hsort]; [set_solver|].
  destruct (Hrow "beneficiary_account") as [account Hacc]; [set_solver|].
  destruct (Hrow "payment_reference") as [reference Href]; [set_solver|].
  destruct (Hrow "processing_date") as [date Hdate]; [set_solver|].
  unfold pay_record, getitem. rewrite Hname, Hsort, Hacc, Href, Hdate. by eexists.
Qed.



Lemma column_ok (d : DataFrame) key vs :
  column d key = Ok vs →
  Forall2 (λ (row : gmap string value) v, row !! key = Some v) (rows d) vs.
Proof.
  unfold column. destruct (bool_decide (key ∈ columns d)); [|done].
  revert vs. induction (rows d) as [|row rs IH]; intros vs; cbn [foldr].
  - intros [= <-]. constructor.
  - destruct (getitem row key) as [v|e] eqn:Hv; cbn; [|done].
    destruct (foldr _ _ rs) as [vs'|]; cbn; [|done]. intros [= <-].
    constructor; [by apply getitem_ok|]. by apply IH.
Qed.

(** The cells that [Series.sum()] keeps hold the text and the numbers of
    the column. *)
Lemma present_text (vs : list value) :
  forallb (λ v : value, negb (is_text v)) (List.filter (λ v, negb (is_missing v)) vs)
  = forallb (λ v : value, negb (is_text v)) vs.
Proof.
  induction vs as [|v vs IH]; [done|]. destruct v; cbn; by rewrite ?IH.
Qed.

Lemma present_numbers (vs : list value) :
  omap number_of (List.filter (λ v, negb (is_missing v)) vs) = omap number_of vs.
Proof.
  induction vs as [|v vs IH]; [done|]. destruct v; cbn; by rewrite ?IH.
Qed.


(** A total that has a two-decimal format is the sum of a column without
    text. *)
Lemma series_sum_formatted (vs : list value) total amount :
  series_sum vs = Ok total → format_total total = Ok amount →
  Forall (λ v, is_text v = false) vs ∧
  amount = format_2f (column_sum (omap number_of vs)).
Proof.
  unfold series_sum. rewrite present_text, present_numbers.
  destruct (forallb _ vs) eqn:Hvs.
  - intros [= <-] [= <-]. split; [|done].
    apply Forall_forall. intros v Hv. rewrite forallb_forall in Hvs.
    apply list_elem_of_In, Hvs in Hv. by destruct (is_text v).
  - destruct (forallb is_text _); [|done]. by intros [= <-].
Qed.

End contra.

Section exact_total.
Context {number : Type} `{!Numeric number} `{!Exact number}.
#[local] Abbreviation value := (@value number).
#[local] Abbreviation DataFrame := (@DataFrame number).
#[local] Abbreviation args := (@args number).




End exact_total.


Section layout.
Context {number : Type} `{!Numeric number}.
#[local] Abbreviation value := (@value number).
#[local] Abbreviation DataFrame := (@DataFrame number).
#[local] Abbreviation args := (@args number).

Lemma header_block_well_formed (a : args) t : Forall well_formed (header_block a t).
Proof. repeat constructor. Qed.

Lemma contra_record_well_formed (a : args) amount :
  well_formed (contra_record a amount).
Proof. repeat constructor. Qed.

Lemma trailer_block_well_formed :
  Forall well_formed (trailer_block (number:=number)).
Proof. repeat constructor. Qed.

Lemma pay_of_well_formed (row : gmap string value) amount r :
  pay_of row amount r → well_formed r.
Proof. intros (? & ? & ? & ? & ? & _ & _ & _ & _ & _ & ->). repeat constructor. Qed.

Lemma run_rows_well_formed rs recs av avu res recs' av' avu' :
  run_rows rs recs av avu = (res, (recs', av', avu')) →
  Forall well_formed recs → Forall well_formed recs'.
Proof.
  intros Hrun Hrecs.
  apply run_rows_spec in Hrun as (pays & -> & _ & _ & Hpays).
  apply Forall_app. split; [done|].
  apply Forall_lookup. intros i r Hr.
  destruct (Hpays i r Hr) as (row & x & _ & _ & Hpay).
  by eapply pay_of_well_formed.
Qed.

(** C6. Whatever a call has appended to [records], whether it returned or
    raised, has eight fields, and the positions past those its record type
    populates hold empty text. *)
Theorem C6_eight_fields a now recs :
  records (vars (call a now).2) = Some recs → Forall well_formed recs.
Proof.
  rewrite call_outcome. unfold outcome.
  destruct (issubset _ _); [|done].
  destruct (run_rows _ _ _ _) as [res [[recs' av] avu]] eqn:Hrun.
  apply run_rows_well_formed in Hrun; [|apply header_block_well_formed].
  destruct res as [[]|e]; [|by intros [= <-]].
  destruct (column (df a) "amount" ≫= series_sum) as [total|e]; [|by intros [= <-]].
  destruct (format_total total) as [amount|e]; intros [= <-]; [|done].
  apply Forall_app. split; [done|].
  apply Forall_cons. split; [apply contra_record_well_formed|].
  apply trailer_block_well_formed.
Qed.

End layout.

Section serialisation.
Context {number : Type} `{!Numeric number}.
#[local] Abbreviation value := (@value number).
#[local] Abbreviation DataFrame := (@DataFrame number).
#[local] Abbreviation args := (@args number).

Lemma writerows_write_text (recs : list record) :
  writerows recs = write_text (rendered recs).
Proof.
  induction recs as [|r recs IH]; [done|].
  unfold writerows, write_text, rendered in *. cbn [foldr fmap list_fmap]. by rewrite IH.
Qed.

Lemma render_text (v : value) : is_text v = true → Str (render v) = v.
Proof. by destruct v. Qed.

Lemma pay_of_text (d : DataFrame) row amount r :
  text_cells d → row ∈ rows d → pay_of row amount r →
  Str <$> (render <$> r) = r.
Proof.
  intros Htext Hrow (name & sort_code & account & reference & date &
                     Hname & Hsort & Hacc & Href & Hdate & ->).
  unfold text_cells in Htext. rewrite Forall_forall in Htext.
  specialize (Htext row Hrow). cbn.
  rewrite !render_text; [done|..]; by eapply Htext.
Qed.

(** C7 (amended). When no field written is longer than the field limit of
    the reader, reading back the text a call returns yields, record by
    record and field by field, the text written for each field: the field
    itself when it is text, [str] of a number (nan for the NaN that
    [read_csv] puts in a cell left empty), the empty text for [None].  When
    every cell outside the amount column is text, that is the record
    sequence itself. *)
Theorem C7_round_trip a now out σ :
  call a now = (Ok out, σ) →
  ∃ recs, records (vars σ) = Some recs ∧
    (within_limit field_size_limit (rendered recs) = true →
     reader field_size_limit out = Some (rendered recs)) ∧
    (text_cells (df a) → as_text (rendered recs) = recs).
Proof.
  intros Hcall.
  apply call_returns in Hcall as (pays & av & avu & total & amount & Hcall).
  cbv zeta in Hcall. destruct Hcall as (_ & Hrun & _ & _ & -> & ->).
  eexists. split; [reflexivity|]. split.
  - intros Hfit. rewrite writerows_write_text. by apply reader_write_text.
  - intros Htext.
    apply run_rows_spec in Hrun as (pays' & Heq & _ & _ & Hpays).
    apply app_inv_head in Heq as <-.
    unfold as_text, rendered. rewrite !fmap_app. f_equal. f_equal.
    apply list_eq. intros i. rewrite !list_lookup_fmap.
    destruct (pays !! i) as [r|] eqn:Hr; [|done]. cbn. f_equal.
    destruct (Hpays i r Hr) as (row & x & Hrow & _ & Hpay).
    eapply pay_of_text; [done| |done]. by eapply list_elem_of_lookup_2.
Qed.

End serialisation.

Section header.
Context {number : Type} `{!Numeric number}.
#[local] Abbreviation value := (@value number).
#[local] Abbreviation DataFrame := (@DataFrame number).
#[local] Abbreviation args := (@args number).

Lemma is_digit_digit (n : Z) : is_digit (digit n) = true ∧ digit_val (digit n) = (n `mod` 10)%Z.
Proof.
  unfold digit. pose proof (Z.mod_pos_bound n 10 eq_refl) as Hn.
  assert (n `mod` 10 = 0 ∨ n `mod` 10 = 1 ∨ n `mod` 10 = 2 ∨ n `mod` 10 = 3 ∨
          n `mod` 10 = 4 ∨ n `mod` 10 = 5 ∨ n `mod` 10 = 6 ∨ n `mod` 10 = 7 ∨
          n `mod` 10 = 8 ∨ n `mod` 10 = 9)%Z as Hcases by lia.
  repeat destruct Hcases as [-> | Hcases]; try rewrite Hcases; done.
Qed.

(** A valid calendar date is rendered as YYYY-MM-DD, and reads back. *)
Lemma strftime_Ymd_iso (d : datetime) :
  valid_date d →
  is_iso_date (strftime_Ymd d) = true ∧
  read_iso_date (strftime_Ymd d) = Some (year d, month d, day d).
Proof.
  intros (Hy & Hm & Hd). unfold strftime_Ymd, pad4, pad2.
  rewrite !append_cons, !append_empty_l. cbn [is_iso_date read_iso_date].
  repeat match goal with
         | |- context [digit ?n] =>
             let Hdig := fresh in let Hval := fresh in
             destruct (is_digit_digit n) as [Hdig Hval];
             rewrite ?Hdig, ?Hval; clear Hdig Hval;
             generalize (digit n); intros ?
         end.
  split; [done|]. f_equal. f_equal; [f_equal|]; Z.div_mod_to_equations; lia.
Qed.

(** C9 (amended). Past the column check the first four records are built
    from the parameters and the issue date alone: VOL carries the serial
    001, the institution tag HSBC, the issue date and four empty fields;
    HDR1 the debtor name and account, the tag and the date; HDR2 the batch
    label and the batch id; UHL1 the debtor name and account.  The issue
    date has the shape YYYY-MM-DD. *)
Theorem C9_header_block a now :
  required_cols ⊆ list_to_set (columns (df a)) →
  valid_date now →
  ∃ recs t,
    records (vars (call a now).2) = Some recs ∧
    t = strftime_Ymd now ∧ is_iso_date t = true ∧
    read_iso_date t = Some (year now, month now, day now) ∧
    take 4 recs =
      [ [Str "VOL"; Str "001"; Str "HSBC"; Str t; Str ""; Str ""; Str ""; Str ""];
        [Str "HDR1"; Str (debtor_name a); Str (debtor_account a); Str "HSBC"; Str t;
         Str ""; Str ""; Str ""];
        [Str "HDR2"; Str ("Payment Batch " +:+ batch_id a); Str (batch_id a);
         Str ""; Str ""; Str ""; Str ""; Str ""];
        [Str "UHL1"; Str (debtor_name a); Str (debtor_account a);
         Str ""; Str ""; Str ""; Str ""; Str ""] ].
Proof.
  intros Hsub Hdate. destruct (strftime_Ymd_iso now Hdate) as [Hiso Hread].
  rewrite call_outcome. unfold outcome, issubset.
  rewrite bool_decide_eq_true_2 by done.
  destruct (run_rows _ _ _ _) as [res [[recs av] avu]] eqn:Hrun.
  apply run_rows_spec in Hrun as (pays & -> & _).
  assert (∀ rest, take 4 ((header_block a (strftime_Ymd now) ++ pays) ++ rest)
                  = header_block a (strftime_Ymd now)) as Htake by done.
  destruct res as [[]|e].
  - destruct (column (df a) "amount" ≫= series_sum) as [total|e].
    + destruct (format_total total) as [amount|e]; eexists _, _;
        (split; [reflexivity|]); repeat (split; [done|]);
        [apply Htake | rewrite <- (app_nil_r (_ ++ pays)); apply Htake].
    + eexists _, _. split; [reflexivity|]. repeat (split; [done|]).
      rewrite <- (app_nil_r (_ ++ pays)). apply Htake.
  - eexists _, _. split; [reflexivity|]. repeat (split; [done|]).
    rewrite <- (app_nil_r (_ ++ pays)). apply Htake.
Qed.

End header.

Section carried_amount.
Context {number : Type} `{!Numeric number}.
#[local] Abbreviation value := (@value number).
#[local] Abbreviation DataFrame := (@DataFrame number).
#[local] Abbreviation args := (@args number).

(** [amount_val] holds the amount of the last row that [float] accepted. *)
Lemma foldl_carried_last rs : ∀ av x,
  foldl carried av rs = Some x →
  (av = Some x ∧ Forall (λ row, parsed_amount row = None) rs) ∨
  ∃ j row, rs !! j = Some row ∧ parsed_amount row = Some x ∧
    ∀ k row', j < k → rs !! k = Some row' → parsed_amount row' = None.
Proof.
  induction rs as [|row rs IH]; intros av x Hx; [by left|].
  cbn [foldl] in Hx. apply IH in Hx as [[Hav Hrs]|(j & row' & Hj & Hrow' & Hlast)].
  - unfold carried in Hav. destruct (parsed_amount row) as [y|] eqn:Hrow.
    + right. exists 0, row. split; [done|]. split; [congruence|].
      intros [|k] row'' Hk Hrow''; [lia|]. cbn in Hrow''.
      rewrite Forall_forall in Hrs. apply Hrs. by eapply list_elem_of_lookup_2.
    + left. split; [done|]. by apply Forall_cons.
  - right. exists (S j), row'. split; [done|]. split; [done|].
    intros [|k] row'' Hk Hrow''; [lia|]. apply (Hlast k); [lia|done].
Qed.

(** In a call that returns, a row whose amount [float] rejects comes after a
    row whose amount it accepted, and its PAY record carries the two-decimal
    format of the amount of the last such row. *)
Theorem unparsable_amount_carried a now out σ i row :
  call a now = (Ok out, σ) →
  rows (df a) !! i = Some row →
  parsed_amount row = None →
  ∃ recs j prev x r,
    records (vars σ) = Some recs ∧
    j < i ∧ rows (df a) !! j = Some prev ∧ parsed_amount prev = Some x ∧
    (∀ k row', j < k < i → rows (df a) !! k = Some row' → parsed_amount row' = None) ∧
    recs !! (4 + i) = Some r ∧ pay_of row (format_2f x) r.
Proof.
  intros Hcall Hrow Hbad.
  apply call_returns in Hcall as (pays & av & avu & total & amount & Hcall).
  cbv zeta in Hcall. destruct Hcall as (_ & Hrun & _ & _ & -> & ->).
  apply run_rows_spec in Hrun as (pays' & Heq & _ & Hlen & Hpays).
  apply app_inv_head in Heq as <-. specialize (Hlen eq_refl).
  assert (i < length pays) as Hi by (rewrite Hlen; by eapply lookup_lt_Some).
  destruct (lookup_lt_is_Some_2 pays i Hi) as [r Hr].
  destruct (Hpays i r Hr) as (row' & x & Hrow' & Hx & Hpay).
  assert (row' = row) as -> by congruence.
  apply foldl_carried_last in Hx as [[? _]|(j & prev & Hj & Hprev & Hlast)]; [done|].
  apply lookup_take_Some in Hj as [Hj Hji].
  assert (j ≠ i) by (intros ->; congruence).
  eexists _, j, prev, x, r. split; [reflexivity|].
  split; [lia|]. split; [done|]. split; [done|]. split.
  - intros k row'' Hk Hrow''. apply (Hlast k); [lia|].
    apply lookup_take_Some. split; [done|lia].
  - split; [|done]. cbn. by apply lookup_app_l_Some.
Qed.

End carried_amount.

Section failures.
Context {number : Type} `{!Numeric number}.
#[local] Abbreviation value := (@value number).
#[local] Abbreviation DataFrame := (@DataFrame number).
#[local] Abbreviation args := (@args number).

Lemma column_raise (d : DataFrame) key e :
  column d key = Raise e → ∀ m, e ≠ MissingColumns m.
Proof.
  unfold column. destruct (bool_decide (key ∈ columns d)); [|by intros [= <-]].
  induction (rows d) as [|row rs IH]; cbn [foldr]; [done|].
  destruct (getitem row key) as [v|e'] eqn:Hv; cbn.
  - destruct (foldr _ _ rs) as [vs'|]; cbn; [done|]. intros [= <-]. by apply IH.
  - unfold getitem in Hv. destruct (row !! key); [done|].
    injection Hv as <-. by intros [= <-].
Qed.

(** A column with a text cell has no two-decimal total. *)
Lemma series_sum_text (vs : list value) s :
  Str s ∈ vs → series_sum vs ≫= format_total = Raise TypeError
               ∨ series_sum vs ≫= format_total = Raise ValueError.
Proof.
  intros Hs. unfold series_sum. rewrite present_text.
  assert (forallb (λ v : value, negb (is_text v)) vs = false) as ->.
  { apply not_true_is_false. intros Hall. rewrite forallb_forall in Hall.
    apply list_elem_of_In, Hall in Hs. done. }
  destruct (forallb is_text _); [by right | by left].
Qed.

Lemma pay_record_raise (row : gmap string value) av e :
  pay_record row av = Raise e → ∀ m, e ≠ MissingColumns m.
Proof.
  unfold pay_record, getitem, mbind, result_bind.
  repeat match goal with
         | |- context [row !! ?k] => destruct (row !! k)
         | |- context [match av with Some _ => _ | None => _ end] => destruct av
         end; cbn; try done; by intros [= <-].
Qed.

Lemma run_rows_raise rs : ∀ (recs : list record) av avu e st,
  run_rows rs recs av avu = (Raise e, st) → ∀ m, e ≠ MissingColumns m.
Proof.
  induction rs as [|row rs IH]; intros recs av avu e st; cbn [run_rows]; [done|].
  destruct (try_amount row av avu) as [av' avu'].
  destruct (pay_record row av') as [r|e'] eqn:Hpay; [by apply IH|].
  intros [= <- <-]. by eapply pay_record_raise.
Qed.

(** Past the column check, a text cell anywhere in the amount column makes
    the call raise: at the latest when the total is formatted. *)
Theorem text_amount_raises a now row s :
  required_cols ⊆ list_to_set (columns (df a)) →
  row ∈ rows (df a) → row !! "amount" = Some (Str s) →
  ∃ e, (call a now).1 = Raise e ∧ ∀ m, e ≠ MissingColumns m.
Proof.
  intros Hsub Hrow Hs. rewrite call_outcome. unfold outcome, issubset.
  rewrite bool_decide_eq_true_2 by done.
  destruct (run_rows _ _ _ _) as [[[]|e] [[recs av] avu]] eqn:Hrun.
  2:{ exists e. split; [done|]. by eapply run_rows_raise. }
  destruct (column (df a) "amount") as [vs|e] eqn:Hcol.
  2:{ exists e. split; [done|]. by eapply column_raise. }
  assert (Str s ∈ vs) as Hin.
  { apply column_ok in Hcol. apply list_elem_of_lookup_1 in Hrow as [i Hi].
    destruct (Forall2_lookup_l _ _ _ _ _ Hcol Hi) as (v & Hv & Hrv).
    apply list_elem_of_lookup_2 with i. congruence. }
  cbn. destruct (series_sum_text vs s Hin) as [Hsum|Hsum];
    unfold mbind, result_bind in Hsum;
    destruct (series_sum vs) as [total|e]; cbn;
    [rewrite Hsum | injection Hsum as -> | rewrite Hsum | injection Hsum as ->];
    eexists; (split; [reflexivity|done]).
Qed.

(** When [float] rejects the amount of the first row, [amount_val] is
    unbound as its record is built: the call raises with the header block
    alone in [records]. *)
Theorem first_row_unparsable_raises a now row rest :
  required_cols ⊆ list_to_set (columns (df a)) →
  rectangular (df a) →
  rows (df a) = row :: rest →
  parsed_amount row = None →
  (call a now).1 = Raise (UnboundLocalError "amount_val") ∧
  records (vars (call a now).2) = Some (header_block a (strftime_Ymd now)).
Proof.
  intros Hsub Hrect Hrows Hbad.
  assert (∀ key, key ∈ required_cols → is_Some (row !! key)) as Hrow.
  { intros key Hkey. eapply rectangular_lookup; [done..| |done].
    rewrite Hrows. by left. }
  destruct (Hrow "beneficiary_name") as [name Hname]; [set_solver|].
  destruct (Hrow "beneficiary_sort_code") as [sort_code Hsort]; [set_solver|].
  destruct (Hrow "beneficiary_account") as [account Hacc]; [set_solver|].
  rewrite call_outcome. unfold outcome, issubset.
  rewrite bool_decide_eq_true_2, Hrows by done.
  cbn [run_rows]. unfold try_amount. rewrite Hbad.
  unfold pay_record, getitem. rewrite Hname, Hsort, Hacc. done.
Qed.

End failures.

(** ** The text returned *)

Section returned_text.
Context {number : Type} `{!Numeric number}.
#[local] Abbreviation value := (@value number).
#[local] Abbreviation args := (@args number).

(** Whatever the records and the field limit of the reader: when no field
    written is longer than the limit, [csv.reader] reads the text of
    [writer.writerows] back as the rows of the texts written for the fields,
    quotes, commas and line breaks inside a field restored; and whenever it
    reads the text at all, these are the rows it returns. *)
Theorem writerows_round_trip (limit : N) (recs : list record) :
  (within_limit limit (rendered recs) = true →
   reader limit (writerows recs) = Some (rendered recs)) ∧
  (∀ parsed, reader limit (writerows recs) = Some parsed → parsed = rendered recs).
Proof.
  rewrite writerows_write_text. split.
  - apply reader_write_text.
  - apply reader_write_text_sound.
Qed.

(** Two sequences of records are written as the same text exactly when
    their fields are written alike: the text tells where each field and
    each record ends. *)
Theorem writerows_same_text (recs1 recs2 : list record) :
  writerows recs1 = writerows recs2 ↔ rendered recs1 = rendered recs2.
Proof.
  split; intros Heq.
  - destruct (within_limit_exists (rendered recs1)) as [limit Hlimit].
    pose proof (reader_write_text limit _ Hlimit) as Hread.
    rewrite <- writerows_write_text, Heq, writerows_write_text in Hread.
    by apply reader_write_text_sound in Hread.
  - by rewrite !writerows_write_text, Heq.
Qed.

(** When no field of the records a call has built is longer than the field
    limit, the text it returns reads back as N + 8 rows of eight fields. *)
Theorem returned_text_rows a now out σ recs :
  call a now = (Ok out, σ) →
  records (vars σ) = Some recs →
  within_limit field_size_limit (rendered recs) = true →
  ∃ parsed, reader field_size_limit out = Some parsed ∧
    length parsed = length (rows (df a)) + 8 ∧
    Forall (λ r : list string, length r = 8) parsed.
Proof.
  intros Hcall Hrecs Hfit.
  apply call_returns in Hcall as (pays & av & avu & total & amount & Hcall).
  cbv zeta in Hcall. destruct Hcall as (_ & Hrun & _ & _ & -> & ->).
  injection Hrecs as <-.
  exists (rendered ((header_block a (strftime_Ymd now) ++ pays)
                    ++ contra_record a amount :: trailer_block)).
  split; [rewrite writerows_write_text; by apply reader_write_text|].
  pose proof (run_rows_well_formed _ _ _ _ _ _ _ _ Hrun
                (header_block_well_formed a _)) as Hwf.
  apply run_rows_spec in Hrun as (pays' & Heq & _ & Hlen & _).
  apply app_inv_head in Heq as <-. specialize (Hlen eq_refl).
  unfold rendered. split.
  - rewrite length_fmap, !length_app. cbn. lia.
  - apply Forall_fmap, Forall_app. split.
    + eapply Forall_impl; [exact Hwf|]. intros r (Hr & _). cbn. by rewrite length_fmap.
    + repeat constructor.
Qed.

End returned_text.

(** ** When a call returns, and how it fails *)

Section behaviour.
Context {number : Type} `{!Numeric number}.
#[local] Abbreviation value := (@value number).
#[local] Abbreviation DataFrame := (@DataFrame number).
#[local] Abbreviation args := (@args number).

(** Once [amount_val] is bound the loop runs to its end. *)
Lemma run_rows_bound rs : ∀ (recs : list record) x avu,
  Forall (λ row : gmap string value,
            ∀ key, key ∈ required_cols → is_Some (row !! key)) rs →
  ∃ recs' av' avu', run_rows rs recs (Some x) avu = (Ok (), (recs', av', avu')).
Proof.
  induction rs as [|row rs IH]; intros recs x avu Hrows.
  - by eexists _, _, _.
  - apply Forall_cons in Hrows as [Hrow Hrows]. cbn [run_rows].
    unfold try_amount. destruct (parsed_amount row) as [y|].
    + destruct (pay_record_complete row y Hrow) as [r ->]. by apply IH.
    + destruct (pay_record_complete row x Hrow) as [r ->]. by apply IH.
Qed.

Lemma pay_record_unbound (row : gmap string value) :
  (∀ key, key ∈ required_cols → is_Some (row !! key)) →
  pay_record row None = Raise (UnboundLocalError "amount_val").
Proof.
  intros Hrow.
  destruct (Hrow "beneficiary_name") as [name Hname]; [set_solver|].
  destruct (Hrow "beneficiary_sort_code") as [sort_code Hsort]; [set_solver|].
  destruct (Hrow "beneficiary_account") as [account Hacc]; [set_solver|].
  unfold pay_record, getitem. by rewrite Hname, Hsort, Hacc.
Qed.

(** On complete rows the loop fails on the first row or not at all. *)
Lemma run_rows_start rs (recs : list record) :
  Forall (λ row : gmap string value,
            ∀ key, key ∈ required_cols → is_Some (row !! key)) rs →
  match head rs with
  | Some row =>
      match parsed_amount row with
      | Some _ => ∃ recs' av avu, run_rows rs recs None None = (Ok (), (recs', av, avu))
      | None => run_rows rs recs None None
                = (Raise (UnboundLocalError "amount_val"), (recs, None, Some zero_float))
      end
  | None => run_rows rs recs None None = (Ok (), (recs, None, None))
  end.
Proof.
  intros Hrows. destruct rs as [|row rs]; [done|].
  apply Forall_cons in Hrows as [Hrow Hrows]. cbn [head run_rows].
  unfold try_amount. destruct (parsed_amount row) as [x|].
  - destruct (pay_record_complete row x Hrow) as [r ->]. by apply run_rows_bound.
  - by rewrite pay_record_unbound.
Qed.

Lemma column_complete (d : DataFrame) key :
  key ∈ columns d →
  Forall (λ row : gmap string value, is_Some (row !! key)) (rows d) →
  ∃ vs, column d key = Ok vs.
Proof.
  intros Hkey Hrows. unfold column. rewrite bool_decide_eq_true_2 by done.
  induction Hrows as [|row rs [v Hv] _ [vs IH]]; [by eexists|].
  cbn [foldr]. rewrite IH. unfold getitem. rewrite Hv. by eexists.
Qed.

Lemma forallb_false {A} (f : A → bool) (l : list A) :
  forallb f l = false → ∃ x, x ∈ l ∧ f x = false.
Proof.
  induction l as [|x l IH]; [done|]. cbn. destruct (f x) eqn:Hx.
  - intros Hl. destruct (IH Hl) as (y & Hy & Hfy). exists y. split; [by right|done].
  - intros _. exists x. split; [by left|done].
Qed.

Lemma forallb_true {A} (f : A → bool) (l : list A) :
  forallb f l = true ↔ Forall (λ x, f x = true) l.
Proof.
  induction l as [|x l IH]; cbn; [by split|].
  rewrite Forall_cons, andb_true_iff, IH. done.
Qed.

(** A cell of a column comes from a row. *)
Lemma column_cell (rs : list (gmap string value)) key (vs : list value) v :
  Forall2 (λ (row : gmap string value) v, row !! key = Some v) rs vs →
  v ∈ vs → ∃ row, row ∈ rs ∧ row !! key = Some v.
Proof.
  intros Hcol Hv. apply list_elem_of_lookup_1 in Hv as [i Hi].
  destruct (Forall2_lookup_r _ _ _ _ _ Hcol Hi) as (row & Hrow & Hcell).
  exists row. split; [by eapply list_elem_of_lookup_2 | done].
Qed.

Lemma rectangular_complete (d : DataFrame) :
  required_cols ⊆ list_to_set (columns d) → rectangular d →
  Forall (λ row : gmap string value,
            ∀ key, key ∈ required_cols → is_Some (row !! key)) (rows d).
Proof.
  intros Hsub Hrect. apply Forall_forall. intros row Hrow key Hkey.
  by eapply rectangular_lookup.
Qed.

Lemma amount_column (d : DataFrame) :
  required_cols ⊆ list_to_set (columns d) → rectangular d →
  ∃ vs, column d "amount" = Ok vs ∧
    Forall2 (λ (row : gmap string value) v, row !! "amount" = Some v) (rows d) vs.
Proof.
  intros Hsub Hrect.
  destruct (column_complete d "amount") as [vs Hvs].
  - apply (elem_of_list_to_set (C:=gset string)), Hsub. set_solver.
  - eapply Forall_impl; [by apply rectangular_complete|].
    intros row Hrow. apply Hrow. set_solver.
  - exists vs. split; [done|]. by apply column_ok.
Qed.

(** On a rectangular dataset that has the required columns, a call returns
    exactly when [float] accepts the amount of the first row, if there is
    one, and no cell of the amount column is text. *)
Theorem call_returns_iff a now :
  required_cols ⊆ list_to_set (columns (df a)) →
  rectangular (df a) →
  (∃ out, (call a now).1 = Ok out) ↔
  (∀ row, head (rows (df a)) = Some row → is_Some (parsed_amount row)) ∧
  Forall (λ row : gmap string value, ∀ s, row !! "amount" ≠ Some (Str s))
    (rows (df a)).
Proof.
  intros Hsub Hrect.
  pose proof (rectangular_complete _ Hsub Hrect) as Hrows.
  pose proof (run_rows_start _ (header_block a (strftime_Ymd now)) Hrows) as Hstart.
  destruct (amount_column _ Hsub Hrect) as (vs & Hvs & Hcol).
  rewrite call_outcome. unfold outcome, issubset.
  rewrite bool_decide_eq_true_2 by done. rewrite Hvs. cbn [mbind result_bind].
  split.
  - intros [out Hout]. split.
    + intros row Hrow. rewrite Hrow in Hstart.
      destruct (parsed_amount row) as [x|]; [by eexists|].
      by rewrite Hstart in Hout.
    + destruct (run_rows _ _ _ _) as [[[]|e] [[recs av] avu]]; [|done].
      destruct (series_sum vs) as [total|e] eqn:Hsum; [|done].
      destruct (format_total total) as [amount|e] eqn:Hfmt; [|done].
      destruct (series_sum_formatted _ _ _ Hsum Hfmt) as [Htext _].
      apply Forall_lookup. intros i row Hrow s Hs.
      destruct (Forall2_lookup_l _ _ _ _ _ Hcol Hrow) as (v & Hv & Hcell).
      rewrite Forall_lookup in Htext. specialize (Htext i v Hv).
      rewrite Hs in Hcell. by injection Hcell as <-.
  - intros [Hfirst Htext].
    assert (∃ recs av avu, run_rows (rows (df a)) (header_block a (strftime_Ymd now))
                             None None = (Ok (), (recs, av, avu))) as (recs & av & avu & ->).
    { destruct (head (rows (df a))) as [row|]; [|by eexists _, _, _].
      destruct (Hfirst row eq_refl) as [x Hx]. by rewrite Hx in Hstart. }
    assert (forallb (λ v : value, negb (is_text v)) vs = true) as Hvs'.
    { apply forallb_true, Forall_lookup. intros i v Hv.
      destruct (Forall2_lookup_r _ _ _ _ _ Hcol Hv) as (row & Hrow & Hcell).
      rewrite Forall_lookup in Htext. specialize (Htext i row Hrow).
      destruct v as [s| |]; [|done..]. by destruct (Htext s). }
    unfold series_sum. rewrite present_text, Hvs'. cbn. by eexists.
Qed.

(** On such a dataset a call fails in one of two places and nowhere else:
    at the first PAY record, with UnboundLocalError on [amount_val], when
    [float] rejects the amount of the first row; or at the total, with
    ValueError or TypeError, when the amount column holds text.  It fails
    at no later row and on no column or cell lookup. *)
Theorem call_raises_how a now e :
  required_cols ⊆ list_to_set (columns (df a)) →
  rectangular (df a) →
  (call a now).1 = Raise e →
  (e = UnboundLocalError "amount_val" ∧
   records (vars (call a now).2) = Some (header_block a (strftime_Ymd now)) ∧
   ∃ row, head (rows (df a)) = Some row ∧ parsed_amount row = None) ∨
  ((e = ValueError ∨ e = TypeError) ∧
   (∃ recs, records (vars (call a now).2) = Some recs ∧
            length recs = 4 + length (rows (df a))) ∧
   ∃ row s, row ∈ rows (df a) ∧ row !! "amount" = Some (Str s)).
Proof.
  intros Hsub Hrect.
  pose proof (rectangular_complete _ Hsub Hrect) as Hrows.
  pose proof (run_rows_start _ (header_block a (strftime_Ymd now)) Hrows) as Hstart.
  destruct (amount_column _ Hsub Hrect) as (vs & Hvs & Hcol).
  rewrite call_outcome. unfold outcome, issubset.
  rewrite bool_decide_eq_true_2 by done. rewrite Hvs. cbn [mbind result_bind].
  destruct (run_rows _ _ _ _) as [[[]|e'] [[recs av] avu]] eqn:Hrun.
  2:{ intros [= <-]. left.
      destruct (head (rows (df a))) as [row|]; [|congruence].
      destruct (parsed_amount row) as [x|] eqn:Hx.
      - destruct Hstart as (? & ? & ? & ?). congruence.
      - split; [congruence|]. split; [cbn; congruence|]. by exists row. }
  clear Hstart.
  assert (length recs = 4 + length (rows (df a))) as Hlen.
  { apply run_rows_spec in Hrun as (pays & -> & _ & Hlen & _).
    rewrite length_app, (Hlen eq_refl). done. }
  clear Hrun. unfold series_sum. rewrite present_text.
  destruct (forallb (λ v : value, negb (is_text v)) vs) eqn:Hnum; [done|].
  apply forallb_false in Hnum as (v & Hv & Htext).
  destruct v as [s| |]; [|done..].
  destruct (column_cell _ _ _ _ Hcol Hv) as (row & Hrow & Hcell).
  destruct (forallb is_text _); cbn; intros [= <-]; right;
    (split; [by auto|]); (split; [by exists recs | by exists row, s]).
Qed.

End behaviour.

(** ** The dataset without rows, and the literal of the handler *)

Section edge_cases.
Context {number : Type} `{!Numeric number}.
#[local] Abbreviation value := (@value number).
#[local] Abbreviation DataFrame := (@DataFrame number).
#[local] Abbreviation args := (@args number).

(** A dataset without rows that has the required columns gives the eight
    fixed records, the CONTRA amount the format of the empty sum. *)
Theorem no_rows_eight_records a now :
  required_cols ⊆ list_to_set (columns (df a)) →
  rows (df a) = [] →
  (call a now).1 =
    Ok (writerows (header_block a (strftime_Ymd now)
                   ++ contra_record a (format_2f (column_sum []))
                   :: trailer_block)) ∧
  length (header_block a (strftime_Ymd now)
          ++ contra_record a (format_2f (column_sum [])) :: trailer_block) = 8.
Proof.
  intros Hsub Hrows. split; [|done].
  rewrite call_outcome. unfold outcome, issubset, column.
  rewrite bool_decide_eq_true_2 by done. rewrite Hrows. cbn [run_rows].
  rewrite bool_decide_eq_true_2; [done|].
  apply (elem_of_list_to_set (C:=gset string)), Hsub. set_solver.
Qed.

End edge_cases.

Section fallback.
Context {number : Type}.

Lemma run_rows_fallback (float_of_str : string → option number) column_sum
    format_2f str_of_number (z1 z2 : number) rs :
  ∀ (recs : list (list (@value number))) av avu1 avu2,
    let N1 := Build_Numeric number float_of_str column_sum format_2f str_of_number z1 in
    let N2 := Build_Numeric number float_of_str column_sum format_2f str_of_number z2 in
    (@run_rows _ N1 rs recs av avu1).1 = (@run_rows _ N2 rs recs av avu2).1 ∧
    (@run_rows _ N1 rs recs av avu1).2.1 = (@run_rows _ N2 rs recs av avu2).2.1.
Proof.
  induction rs as [|row rs IH]; intros recs av avu1 avu2 N1 N2; [done|].
  cbn [run_rows]. unfold try_amount.
  change (@parsed_amount _ N1 row) with (@parsed_amount _ N2 row).
  destruct (@parsed_amount _ N2 row) as [x|].
  - change (@pay_record _ N1 row (Some x)) with (@pay_record _ N2 row (Some x)).
    destruct (@pay_record _ N2 row (Some x)); [apply IH | done].
  - change (@pay_record _ N1 row av) with (@pay_record _ N2 row av).
    destruct (@pay_record _ N2 row av); [apply IH | done].
Qed.

(** The number that the [except] branch assigns never reaches the output:
    two number systems that agree on [float], on the column sum and on the
    formats, whatever the value of their literal 0.0, give the same result
    and the same records on every call. *)
Theorem fallback_zero_unused (N1 N2 : Numeric number) (a : @args number) now :
  @float_of_str _ N1 = @float_of_str _ N2 →
  @column_sum _ N1 = @column_sum _ N2 →
  @format_2f _ N1 = @format_2f _ N2 →
  @str_of_number _ N1 = @str_of_number _ N2 →
  (@call _ N1 a now).1 = (@call _ N2 a now).1 ∧
  records (vars (@call _ N1 a now).2) = records (vars (@call _ N2 a now).2).
Proof.
  destruct N1 as [f1 s1 p1 t1 z1], N2 as [f2 s2 p2 t2 z2]. cbn.
  intros <- <- <- <-. rewrite !call_outcome. unfold outcome.
  destruct (issubset _ _); [|done].
  pose proof (run_rows_fallback f1 s1 p1 t1 z1 z2 (rows (df a))
                (header_block a (strftime_Ymd now)) None None None) as [Hres Hrecs].
  cbv zeta in Hres, Hrecs.
  destruct (@run_rows _ (Build_Numeric _ f1 s1 p1 t1 z1) _ _ _ _)
    as [res1 [[recs1 av1] avu1]].
  destruct (@run_rows _ (Build_Numeric _ f1 s1 p1 t1 z2) _ _ _ _)
    as [res2 [[recs2 av2] avu2]].
  cbn in Hres, Hrecs. injection Hrecs as <- <-. subst res2.
  destruct res1 as [[]|e]; [|done].
  change (@series_sum _ (Build_Numeric _ f1 s1 p1 t1 z1))
    with (@series_sum _ (Build_Numeric _ f1 s1 p1 t1 z2)).
  destruct (_ ≫= _) as [total|e]; [|done].
  change (@format_total _ (Build_Numeric _ f1 s1 p1 t1 z1))
    with (@format_total _ (Build_Numeric _ f1 s1 p1 t1 z2)).
  destruct (format_total total); done.
Qed.

End fallback.

(** ** The page *)

Section page_properties.
Context {number : Type} `{!Numeric number}.
Context {file read_error : Type} `{!Host number file read_error}.
#[local] Abbreviation DataFrame := (@DataFrame number).
#[local] Abbreviation session := (@session file).
#[local] Abbreviation element := (@element number).

(** A run never lets an exception out, and lays out [layout]. *)
Lemma run_layout (s : session) : run s = (inr (), layout s).
Proof.
  unfold run, layout, below, main, try_catch, preview, report.
  unfold mbind, mret, UI_bind, UI_ret, st_title, st_write, st_text_input,
    st_file_uploader, st_subheader, st_dataframe, st_button, st_success,
    st_download_button, st_error, pd_read_csv, call_process_csv, show.
  cbn -[introduction call str_exception].
  destruct (uploaded s) as [f|]; [|done].
  destruct (read_csv f) as [e|d]; [done|].
  cbn -[introduction call str_exception].
  destruct (bool_decide _); [|done].
  cbn -[introduction call str_exception].
  by destruct (call _ _).1.
Qed.

(** The form holds widgets only. *)
Lemma form_widgets (s : session) (x : element) :
  x ∈ form s →
  match x with
  | Title _ | Write _ | TextInput _ _ | FileUploader _ _ => True
  | _ => False
  end.
Proof.
  unfold form. intros Hx.
  repeat (apply elem_of_cons in Hx as [->|Hx]; [exact I|]).
  by apply elem_of_nil in Hx.
Qed.

(** What stands below the form, case by case. *)
Lemma below_cases (s : session) (x : element) :
  x ∈ below s ↔
  ∃ f, uploaded s = Some f ∧
    match read_csv f with
    | inl e => x = report (ReadCsv e)
    | inr d =>
        x ∈ preview d ∨
        (clicked s = Some "Generate BACS File" ∧
         match (call (request s d) (started s)).1 with
         | Ok text =>
             x = Success "BACS file generated successfully!" ∨
             x = DownloadButton "Download BACS File" text "bacs_file.csv" "text/csv"
         | Raise e => x = report (Process e)
         end)
    end.
Proof.
  unfold below. destruct (uploaded s) as [f|].
  2:{ split; [by intros ?%elem_of_nil | by intros (f & [=] & _)]. }
  assert (∀ P : file → Prop, (∃ f', Some f = Some f' ∧ P f') ↔ P f) as ->.
  { intros P. split; [by intros (f' & [= <-] & HP) | by exists f]. }
  destruct (read_csv f) as [e|d].
  { rewrite elem_of_cons, elem_of_nil. tauto. }
  rewrite elem_of_app. apply or_iff_compat_l.
  case_bool_decide as Hclick.
  - destruct (call _ _).1 as [text|e];
      rewrite !elem_of_cons, elem_of_nil; tauto.
  - rewrite elem_of_nil. tauto.
Qed.

(** The download button is on the page exactly in the run started by a
    click on the Generate button, with a file uploaded that [pd.read_csv]
    reads and on which [process_csv], called with the texts of the four
    inputs, returns: the button then carries the returned text under the
    file name bacs_file.csv and the type text/csv.  In the run that a click
    on the download button itself starts it is no longer there. *)
Theorem download_offered_iff (s : session) label data file_name mime :
  DownloadButton label data file_name mime ∈ (run s).2 ↔
  label = "Download BACS File" ∧ file_name = "bacs_file.csv" ∧ mime = "text/csv" ∧
  clicked s = Some "Generate BACS File" ∧
  ∃ f d, uploaded s = Some f ∧ read_csv f = inr d ∧
         (call (request s d) (started s)).1 = Ok data.
Proof.
  rewrite run_layout. cbn [snd]. unfold layout. rewrite elem_of_app, below_cases.
  split.
  - intros [Hform|(f & Hf & Hbelow)]; [by apply form_widgets in Hform|].
    destruct (read_csv f) as [e|d] eqn:Hread; [done|].
    destruct Hbelow as [Hpre|[Hclick Hcall]].
    { unfold preview in Hpre.
      repeat (apply elem_of_cons in Hpre as [[=]|Hpre]). by apply elem_of_nil in Hpre. }
    destruct (call _ _).1 as [text|e] eqn:Hres; [|done].
    destruct Hcall as [[=]|[= -> -> -> ->]].
    do 4 (split; [done|]). by exists f, d.
  - intros (-> & -> & -> & Hclick & f & d & Hf & Hread & Hcall).
    right. exists f. split; [done|]. rewrite Hread. right. split; [done|].
    rewrite Hcall. by right.
Qed.

(** A run lets no exception out.  It shows an error exactly when
    [pd.read_csv] raises on the uploaded file, or when [process_csv]
    raises in the run started by a click on the Generate button; the
    error is the text of the exception after a fixed prefix. *)
Theorem error_shown_iff (s : session) :
  (run s).1 = inr () ∧
  ∀ body, Error body ∈ (run s).2 ↔
    ∃ f, uploaded s = Some f ∧
      ((∃ e, read_csv f = inl e ∧
             body = "Error processing the file: " +:+ str_read_error e) ∨
       (∃ d e, read_csv f = inr d ∧ clicked s = Some "Generate BACS File" ∧
               (call (request s d) (started s)).1 = Raise e ∧
               body = "Error processing the file: " +:+ str_exception (Process e))).
Proof.
  rewrite run_layout. split; [done|]. intros body. cbn [snd].
  unfold layout. rewrite elem_of_app, below_cases. split.
  - intros [Hform|(f & Hf & Hbelow)]; [by apply form_widgets in Hform|].
    exists f. split; [done|].
    destruct (read_csv f) as [e|d] eqn:Hread.
    { left. exists e. split; [done|]. by injection Hbelow as ->. }
    right. destruct Hbelow as [Hpre|[Hclick Hcall]].
    { unfold preview in Hpre.
      repeat (apply elem_of_cons in Hpre as [[=]|Hpre]). by apply elem_of_nil in Hpre. }
    destruct (call _ _).1 as [text|e] eqn:Hres; [by destruct Hcall|].
    exists d, e. do 3 (split; [done|]). by injection Hcall as ->.
  - intros (f & Hf & [(e & Hread & ->)|(d & e & Hread & Hclick & Hcall & ->)]);
      right; exists f; (split; [done|]); rewrite Hread; [done|].
    right. split; [done|]. by rewrite Hcall.
Qed.

(** A page that shows an error offers no download and reports no
    success. *)
Theorem error_excludes_download (s : session) body :
  Error body ∈ (run s).2 →
  (∀ text, Success text ∉ (run s).2) ∧
  (∀ label data file_name mime,
     DownloadButton label data file_name mime ∉ (run s).2).
Proof.
  rewrite run_layout. cbn [snd]. unfold layout.
  rewrite elem_of_app, below_cases.
  intros [Hform|(f & Hf & Herr)]; [by apply form_widgets in Hform|].
  assert (∀ x : element,
            match x with Success _ | DownloadButton _ _ _ _ => True | _ => False end →
            x ∉ form s ++ below s) as Hnone.
  { intros x Hx [Hform|Hbelow]%elem_of_app.
    { apply form_widgets in Hform. by destruct x. }
    apply below_cases in Hbelow as (f'' & Hf'' & Hbelow).
    rewrite Hf in Hf''. injection Hf'' as <-.
    destruct (read_csv f) as [e|d]; [by subst x|].
    destruct Herr as [Hpre|[_ Herr]].
    { unfold preview in Hpre.
      repeat (apply elem_of_cons in Hpre as [[=]|Hpre]). by apply elem_of_nil in Hpre. }
    destruct Hbelow as [Hpre|[_ Hbelow]].
    { unfold preview in Hpre.
      repeat (apply elem_of_cons in Hpre as [->|Hpre]; [done|]).
      by apply elem_of_nil in Hpre. }
    destruct (call _ _).1 as [text|e]; [by destruct Herr | by subst x]. }
  split; intros; by apply Hnone.
Qed.

(** When the uploaded dataset lacks required columns, the run started by a
    click on the Generate button shows the preview and, below the button,
    one error that names each missing column once. *)
Theorem missing_columns_reported (s : session) f (d : DataFrame) :
  uploaded s = Some f → read_csv f = inr d →
  clicked s = Some "Generate BACS File" →
  ¬ required_cols ⊆ list_to_set (columns d) →
  ∃ names, names ≡ₚ elements (required_cols ∖ list_to_set (columns d)) ∧
    names ≠ [] ∧
    (run s).2 = form s ++ preview d ++
      [Error ("Error processing the file: Missing required columns: "
              +:+ String.concat ", " names)].
Proof.
  intros Hf Hread Hclick Hmissing.
  exists (iterate (required_cols ∖ list_to_set (columns d))).
  split; [apply iterate_elements|]. split.
  { intros Hnil. pose proof (iterate_elements (required_cols ∖ list_to_set (columns d))) as Hperm.
    rewrite Hnil in Hperm. symmetry in Hperm. apply Permutation_nil_r in Hperm.
    apply elements_empty_inv in Hperm. apply Hmissing.
    intros x Hx. destruct (decide (x ∈ (list_to_set (columns d) : gset string))); [done|].
    assert (x ∈ required_cols ∖ list_to_set (columns d)) as Hin by set_solver.
    rewrite (leibniz_equiv _ _ Hperm) in Hin. by apply elem_of_empty in Hin. }
  rewrite run_layout. cbn [snd]. unfold layout, below.
  rewrite Hf, Hread, bool_decide_eq_true_2 by done.
  rewrite call_outcome. unfold outcome, issubset.
  rewrite bool_decide_eq_false_2 by done. done.
Qed.

(** The file offered for download holds what the page shows: it is the
    text written for N + 8 records, N the number of rows of the dataset
    previewed, whose HDR1, HDR2, UHL1 and CONTRA records carry the texts of
    the four inputs and the day of the run; when no field is longer than
    the field limit of the reader, [csv.reader] reads these records back. *)
Theorem download_holds_inputs (s : session) label data file_name mime :
  DownloadButton label data file_name mime ∈ (run s).2 →
  ∃ name account batch sort_code (d : DataFrame)
    (recs : list (list (@value number))) amount,
    (run s).2 !! 2 = Some (TextInput "Enter Debtor (Your Organization) Name" name) ∧
    (run s).2 !! 3 = Some (TextInput "Enter Debtor Account Number" account) ∧
    (run s).2 !! 4 = Some (TextInput "Enter Payment Batch ID" batch) ∧
    (run s).2 !! 5 = Some (TextInput "Enter Contra Sort Code" sort_code) ∧
    (run s).2 !! 8 = Some (Dataframe d) ∧
    data = writerows recs ∧
    length recs = length (rows d) + 8 ∧
    recs !! 1 = Some [Str "HDR1"; Str name; Str account; Str "HSBC";
                      Str (strftime_Ymd (started s)); Str ""; Str ""; Str ""] ∧
    recs !! 2 = Some [Str "HDR2"; Str ("Payment Batch " +:+ batch); Str batch;
                      Str ""; Str ""; Str ""; Str ""; Str ""] ∧
    recs !! 3 = Some [Str "UHL1"; Str name; Str account;
                      Str ""; Str ""; Str ""; Str ""; Str ""] ∧
    recs !! (4 + length (rows d))
      = Some [Str "CONTRA"; Str name; Str sort_code; Str account; Str amount;
              Str ""; Str ""; Str ""] ∧
    (within_limit field_size_limit (rendered recs) = true →
     reader field_size_limit data = Some (rendered recs)).
Proof.
  rewrite run_layout. cbn [snd]. unfold layout. rewrite elem_of_app.
  intros [Hform|Hbelow]; [by apply form_widgets in Hform|].
  unfold below in *.
  destruct (uploaded s) as [f|]; [|by apply elem_of_nil in Hbelow].
  destruct (read_csv f) as [e|d].
  { apply elem_of_cons in Hbelow as [[=]|Hbelow]. by apply elem_of_nil in Hbelow. }
  apply elem_of_app in Hbelow as [Hpre|Hbelow].
  { unfold preview in Hpre.
    repeat (apply elem_of_cons in Hpre as [[=]|Hpre]). by apply elem_of_nil in Hpre. }
  destruct (bool_decide _); [|by apply elem_of_nil in Hbelow].
  destruct (call _ _) as [[text|e] σ] eqn:Hcall; cbn [fst] in Hbelow.
  2:{ apply elem_of_cons in Hbelow as [[=]|Hbelow]. by apply elem_of_nil in Hbelow. }
  assert (data = text) as ->.
  { apply elem_of_cons in Hbelow as [[=]|Hbelow].
    apply elem_of_cons in Hbelow as [[=]|Hbelow]; [done|]. by apply elem_of_nil in Hbelow. }
  clear Hbelow.
  apply call_returns in Hcall as (pays & av & avu & total & amount & Hcall).
  cbv zeta in Hcall. destruct Hcall as (_ & Hrun & _ & _ & -> & _).
  apply run_rows_spec in Hrun as (pays' & Heq & _ & Hlen & _).
  apply app_inv_head in Heq as <-. specialize (Hlen eq_refl). cbn [df request] in Hlen.
  eexists _, _, _, _, d, _, amount.
  do 5 (split; [reflexivity|]).
  split; [reflexivity|]. split.
  { rewrite !length_app. cbn. lia. }
  rewrite <- Hlen.
  split; [reflexivity|]. split; [reflexivity|]. split; [reflexivity|]. split.
  - rewrite (list_lookup_middle _ _ _ (4 + length pays)); [reflexivity|].
    rewrite length_app. reflexivity.
  - intros Hfit. rewrite writerows_write_text. by apply reader_write_text.
Qed.

End page_properties.

(** ** The properties on the datasets of the reference instance *)

Import Decimal Examples.

(** The example of the specification: nine records, the PAY and CONTRA
    amounts both 150.50. *)
Example smith_example :
  (call smith morning).1 = Ok smith_out ∧
  records (vars (call smith morning).2) = Some smith_records ∧
  length smith_records = 9 ∧
  smith_records !! 4 =
    Some [Str "PAY"; Str "J Smith"; Str "11-22-33"; Str "87654321"; Str "150.50";
          Str "INV001"; Str "2024-01-15"; Str ""] ∧
  smith_records !! 5 =
    Some [Str "CONTRA"; Str "ABC Ltd"; Str "12-34-56"; Str "12345678"; Str "150.50";
          Str ""; Str ""; Str ""].
Proof. vm_compute. done. Qed.

(** C1: datasets that have the six required columns and for which fewer
    than N + 8 records are built.  On [bad_second], two rows of text
    amounts, the four header records and the two PAY records are built,
    then the total of the text column cannot be formatted and the call
    raises: no CONTRA record, no trailer.  On [bad_first], one row whose
    amount is no numeral, the header records alone are built. *)
Lemma C1_records_cut_short :
  issubset required_cols (columns (df bad_second)) = true ∧
  length (rows (df bad_second)) = 2 ∧
  (call bad_second morning).1 = Raise ValueError ∧
  tag <$> default [] (records (vars (call bad_second morning).2))
    = Some <$> [Str "VOL"; Str "HDR1"; Str "HDR2"; Str "UHL1"; Str "PAY"; Str "PAY"] ∧
  issubset required_cols (columns (df bad_first)) = true ∧
  length (rows (df bad_first)) = 1 ∧
  tag <$> default [] (records (vars (call bad_first morning).2))
    = Some <$> [Str "VOL"; Str "HDR1"; Str "HDR2"; Str "UHL1"].
Proof. vm_compute. done. Qed.

(** The dataset [missing_second]: two rows, ten records. *)
Lemma returned_record_sequence_witness :
  ∃ recs, records (vars (call missing_second morning).2) = Some recs ∧
    length recs = 10 ∧
    tag <$> recs !! 6 = Some (Some (Str "CONTRA")).
Proof.
  assert (∃ out, call missing_second morning
                 = (Ok out, (call missing_second morning).2)) as [out Hcall]
    by (eexists; vm_compute; reflexivity).
  destruct (returned_record_sequence missing_second morning out
              (call missing_second morning).2 Hcall)
    as (recs & Hrecs & _ & Hlen & _ & _ & Hcontra & _).
  exists recs. split; [exact Hrecs|]. split; [exact Hlen | exact Hcontra].
Defined.

(** The dataset [no_amount]: the missing set is the single label amount. *)
Lemma C2_witness :
  (call no_amount morning).1 = Raise (MissingColumns {["amount"]}) ∧
  records (vars (call no_amount morning).2) = None.
Proof.
  assert (¬ required_cols ⊆ list_to_set (columns (df no_amount))) as Hmissing.
  { apply (bool_decide_eq_false_1 _). vm_compute. reflexivity. }
  destruct (C2_missing_columns no_amount morning Hmissing) as (Hraise & _ & _ & Hrecs & _).
  split; [exact Hraise | exact Hrecs].
Defined.

(** C3: a dataset that has the six required columns and for which no
    CONTRA amount is written.  On [bad_second] the row path parses the
    amount 10.00 and writes it into both PAY records, but the total is taken
    over the cells as they are: the sum of the text column is the text
    10.00abc, which has no two-decimal format; the call raises and no CONTRA
    record is built. *)
Lemma C3_text_total_no_contra :
  issubset required_cols (columns (df bad_second)) = true ∧
  (call bad_second morning).2.(vars).(records) ≫= (.!! 4) =
    Some [Str "PAY"; Str "J Smith"; Str "11-22-33"; Str "87654321"; Str "10.00";
          Str "INV001"; Str "2024-01-15"; Str ""] ∧
  total_ammount (vars (call bad_second morning).2) = Some (Str "10.00abc") ∧
  (call bad_second morning).1 = Raise ValueError ∧
  tag <$> default [] (records (vars (call bad_second morning).2))
    = Some <$> [Str "VOL"; Str "HDR1"; Str "HDR2"; Str "UHL1"; Str "PAY"; Str "PAY"].
Proof. vm_compute. done. Qed.



(** An amount column of text, however well formed the numeral: the dataset
    passes the column check and the row is turned into a PAY record, but the
    column "sum" is text, which has no two-decimal format; the call raises
    and no CONTRA record is built. *)
Example text_numeral_amount_raises :
  issubset required_cols (columns (df smith_text)) = true ∧
  (call smith_text morning).1 = Raise ValueError ∧
  total_ammount (vars (call smith_text morning).2) = Some (Str "150.5") ∧
  tag <$> default [] (records (vars (call smith_text morning).2))
    = Some <$> [Str "VOL"; Str "HDR1"; Str "HDR2"; Str "UHL1"; Str "PAY"].
Proof. vm_compute. done. Qed.

(** C4: a first row whose amount is no numeral.  The handler assigns
    [amount_valu], [amount_val] is still unbound when the record is built,
    and the call raises with the header block alone in [records]. *)
Lemma C4_first_row_unparsable :
  issubset required_cols (columns (df bad_first)) = true ∧
  (call bad_first morning).1 = Raise (UnboundLocalError "amount_val") ∧
  amount_val (vars (call bad_first morning).2) = None ∧
  amount_valu (vars (call bad_first morning).2) = Some zero_float ∧
  records (vars (call bad_first morning).2)
    = Some (header_block bad_first "2024-01-15").
Proof. vm_compute. done. Qed.

(** C5: datasets that pass the column check and whose call raises. *)
Lemma C5_malformed_amount_raises :
  issubset required_cols (columns (df bad_first)) = true ∧
  (call bad_first morning).1 = Raise (UnboundLocalError "amount_val") ∧
  issubset required_cols (columns (df bad_second)) = true ∧
  (call bad_second morning).1 = Raise ValueError ∧
  output (vars (call bad_second morning).2) = None.
Proof. vm_compute. done. Qed.

(** The records built from [smith] are well formed. *)
Lemma C6_witness :
  ∃ recs, records (vars (call smith morning).2) = Some recs ∧ Forall well_formed recs.
Proof.
  exists smith_records.
  assert (records (vars (call smith morning).2) = Some smith_records) as Hrecs
    by (vm_compute; reflexivity).
  split; [exact Hrecs | exact (C6_eight_fields smith morning smith_records Hrecs)].
Defined.

(** The dataset [smith], all text but the amount: the records are read back as they are. *)
Lemma C7_witness :
  ∃ recs, records (vars (call smith morning).2) = Some recs ∧
    reader field_size_limit smith_out = Some (rendered recs) ∧
    as_text (rendered recs) = recs.
Proof.
  assert (call smith morning = (Ok smith_out, (call smith morning).2)) as Hcall
    by (vm_compute; reflexivity).
  destruct (C7_round_trip smith morning smith_out (call smith morning).2 Hcall)
    as (recs & Hrecs & Hread & Htext).
  exists recs. split; [exact Hrecs|]. split.
  { apply Hread.
    assert (Some recs = Some smith_records) as [= ->]
      by (rewrite <- Hrecs; vm_compute; reflexivity).
    vm_compute. reflexivity. }
  apply Htext. repeat constructor.
  intros k v Hkv Hk.
  apply (elem_of_list_to_map_2 (M:=gmap string)) in Hkv.
  repeat (apply elem_of_cons in Hkv as [[= -> ->]|Hkv];
          [first [reflexivity | destruct Hk; reflexivity]|]).
  apply elem_of_nil in Hkv. destruct Hkv.
Defined.

(** C7 does not hold of a cell that is no text: the account number that
    [read_csv] typed as an integer stands in the record as a number and
    comes back from the reader as text. *)
Lemma C7_number_read_back_as_text :
  (call smith_typed morning).1 = Ok typed_out ∧
  records (vars (call smith_typed morning).2) = Some typed_records ∧
  reader field_size_limit typed_out = Some typed_parsed ∧
  typed_records !! 4 ≫= (.!! 3) = Some (Num {| coef := 87654321; places := 0 |}) ∧
  typed_parsed !! 4 ≫= (.!! 3) = Some "87654321" ∧
  as_text typed_parsed ≠ typed_records.
Proof.
  repeat (split; [vm_compute; reflexivity|]).
  intros Heq. apply (f_equal (λ recs, recs !! 4 ≫= (.!! 3))) in Heq.
  vm_compute in Heq. discriminate.
Qed.

(** Two calls on [smith], in the morning and in the evening of one day. *)
Lemma C8_witness : (call smith morning).1 = (call smith evening).1.
Proof. apply (C8_same_date_same_output smith morning evening); reflexivity. Defined.

(** The header block of the call on [smith] on 15 January 2024. *)
Lemma C9_witness :
  ∃ recs t,
    records (vars (call smith morning).2) = Some recs ∧
    t = "2024-01-15" ∧ is_iso_date t = true ∧
    read_iso_date t = Some (2024, 1, 15)%Z ∧
    take 4 recs =
      [ [Str "VOL"; Str "001"; Str "HSBC"; Str t; Str ""; Str ""; Str ""; Str ""];
        [Str "HDR1"; Str "ABC Ltd"; Str "12345678"; Str "HSBC"; Str t;
         Str ""; Str ""; Str ""];
        [Str "HDR2"; Str "Payment Batch 001"; Str "001";
         Str ""; Str ""; Str ""; Str ""; Str ""];
        [Str "UHL1"; Str "ABC Ltd"; Str "12345678";
         Str ""; Str ""; Str ""; Str ""; Str ""] ].
Proof.
  apply (C9_header_block smith morning).
  - apply (bool_decide_eq_true_1 _). vm_compute. reflexivity.
  - unfold valid_date. cbn. lia.
Defined.

(** C9 does not hold of the VOL record: its field after the tag is the
    serial 001, the institution tag and the issue date come at positions 2
    and 3, and four empty fields follow, not two. *)
Lemma C9_vol_record_layout :
  smith_records !! 0 =
    Some [Str "VOL"; Str "001"; Str "HSBC"; Str "2024-01-15";
          Str ""; Str ""; Str ""; Str ""] ∧
  records (vars (call smith morning).2) = Some smith_records ∧
  smith_records !! 0 ≫= (.!! 1) ≠ Some (Str "HSBC") ∧
  smith_records !! 0 ≫= (.!! 2) ≠ Some (Str "2024-01-15") ∧
  trailing_blanks <$> smith_records !! 0 = Some 4.
Proof. vm_compute. done. Qed.

(** The dataset [missing_second]: the amount of [jones] is missing. *)
Lemma unparsable_amount_carried_witness :
  ∃ recs j prev x r,
    records (vars (call missing_second morning).2) = Some recs ∧ j < 1 ∧
    rows (df missing_second) !! j = Some prev ∧ parsed_amount prev = Some x ∧
    recs !! 5 = Some r ∧ pay_of jones (format_2f x) r.
Proof.
  assert (call missing_second morning
          = (Ok (returned_text (call missing_second morning).1),
             (call missing_second morning).2)) as Hcall
    by (vm_compute; reflexivity).
  assert (rows (df missing_second) !! 1 = Some jones) as Hrow by reflexivity.
  assert (parsed_amount jones = None) as Hbad by (vm_compute; reflexivity).
  destruct (unparsable_amount_carried missing_second morning _ _ 1 jones
              Hcall Hrow Hbad)
    as (recs & j & prev & x & r & Hrecs & Hj & Hprev & Hx & _ & Hr & Hpay).
  exists recs, j, prev, x, r. repeat split; assumption.
Defined.

(** The second record of that call carries the amount of the first. *)
Example missing_second_example :
  (call missing_second morning).2.(vars).(records) ≫= (.!! 5) =
    Some [Str "PAY"; Str "A Jones"; Str "44-55-66"; Str "11223344"; Str "10.00";
          Str "INV002"; Str "2024-01-16"; Str ""] ∧
  (call missing_second morning).2.(vars).(records) ≫= (.!! 6) =
    Some [Str "CONTRA"; Str "ABC Ltd"; Str "12-34-56"; Str "12345678"; Str "10.00";
          Str ""; Str ""; Str ""].
Proof. vm_compute. done. Qed.

(** The dataset [bad_second]: its second amount is the text abc. *)
Lemma text_amount_raises_witness :
  ∃ e, (call bad_second morning).1 = Raise e ∧ ∀ m, e ≠ MissingColumns m.
Proof.
  assert (required_cols ⊆ list_to_set (columns (df bad_second))) as Hcols
    by (apply (bool_decide_eq_true_1 _); vm_compute; reflexivity).
  apply (text_amount_raises bad_second morning
           (payment (Str "A Jones") (Str "44-55-66") (Str "11223344") (Str "abc")
              (Str "INV002") (Str "2024-01-16")) "abc" Hcols).
  - right. left.
  - vm_compute. reflexivity.
Defined.

(** The dataset [bad_first]. *)
Lemma first_row_unparsable_raises_witness :
  (call bad_first morning).1 = Raise (UnboundLocalError "amount_val") ∧
  records (vars (call bad_first morning).2)
    = Some (header_block bad_first (strftime_Ymd morning)).
Proof.
  assert (required_cols ⊆ list_to_set (columns (df bad_first))) as Hcols
    by (apply (bool_decide_eq_true_1 _); vm_compute; reflexivity).
  assert (rectangular (df bad_first)) as Hrect
    by (repeat constructor; vm_compute; reflexivity).
  eapply (first_row_unparsable_raises bad_first morning _ [] Hcols Hrect).
  - reflexivity.
  - vm_compute. reflexivity.
Defined.

(** ** The further properties on the datasets and sessions of the reference
    instance *)

Import Sessions.

(** The dataset [smith]: nine rows of eight fields. *)
Lemma returned_text_rows_witness :
  ∃ parsed, reader field_size_limit smith_out = Some parsed ∧ length parsed = 9 ∧
    Forall (λ r : list string, length r = 8) parsed.
Proof.
  assert (call smith morning = (Ok smith_out, (call smith morning).2)) as Hcall
    by (vm_compute; reflexivity).
  assert (records (vars (call smith morning).2) = Some smith_records) as Hrecs
    by (vm_compute; reflexivity).
  assert (within_limit field_size_limit (rendered smith_records) = true) as Hfit
    by (vm_compute; reflexivity).
  destruct (returned_text_rows smith morning smith_out _ smith_records Hcall Hrecs Hfit)
    as (parsed & Hread & Hlen & Hfields).
  exists parsed. split; [exact Hread|]. split; [exact Hlen | exact Hfields].
Defined.

(** The dataset [missing_second]: a number, then a missing cell. *)
Lemma call_returns_iff_witness : ∃ out, (call missing_second morning).1 = Ok out.
Proof.
  assert (required_cols ⊆ list_to_set (columns (df missing_second))) as Hcols
    by (apply (bool_decide_eq_true_1 _); vm_compute; reflexivity).
  assert (rectangular (df missing_second)) as Hrect
    by (repeat constructor; vm_compute; reflexivity).
  apply (call_returns_iff missing_second morning Hcols Hrect). split.
  - intros row [= <-]. vm_compute. eexists. reflexivity.
  - repeat constructor; intros s; vm_compute; discriminate.
Defined.

(** The dataset [bad_second]: the call raises at the total, after the two
    PAY records, and its amount column holds text. *)
Lemma call_raises_how_witness :
  (∃ recs, records (vars (call bad_second morning).2) = Some recs ∧ length recs = 6) ∧
  ∃ (row : gmap string (@value decimal)) s,
    row ∈ rows (df bad_second) ∧ row !! "amount" = Some (Str s).
Proof.
  assert (required_cols ⊆ list_to_set (columns (df bad_second))) as Hcols
    by (apply (bool_decide_eq_true_1 _); vm_compute; reflexivity).
  assert (rectangular (df bad_second)) as Hrect
    by (repeat constructor; vm_compute; reflexivity).
  assert ((call bad_second morning).1 = Raise ValueError) as Hcall
    by (vm_compute; reflexivity).
  destruct (call_raises_how bad_second morning ValueError Hcols Hrect Hcall)
    as [[Hkind _]|(_ & Hrecs & Htext)]; [discriminate Hkind|].
  split; [exact Hrecs | exact Htext].
Defined.

(** The dataset without rows. *)
Lemma no_rows_eight_records_witness :
  (call no_rows morning).1 =
    Ok (writerows (header_block no_rows (strftime_Ymd morning)
                   ++ contra_record no_rows (format_2f (column_sum []))
                   :: trailer_block)) ∧
  length (header_block no_rows (strftime_Ymd morning)
          ++ contra_record no_rows (format_2f (column_sum [])) :: trailer_block) = 8.
Proof.
  assert (required_cols ⊆ list_to_set (columns (df no_rows))) as Hcols
    by (apply (bool_decide_eq_true_1 _); vm_compute; reflexivity).
  exact (no_rows_eight_records no_rows morning Hcols eq_refl).
Defined.

(** The dataset [missing_second], whose second row takes the [except]
    branch, under the two literals for 0.0. *)
Lemma fallback_zero_unused_witness :
  (@call _ numeric missing_second morning).1
    = (@call _ numeric_one missing_second morning).1 ∧
  records (vars (@call _ numeric missing_second morning).2)
    = records (vars (@call _ numeric_one missing_second morning).2).
Proof.
  exact (fallback_zero_unused numeric numeric_one missing_second morning
           eq_refl eq_refl eq_refl eq_refl).
Defined.

(** A file without content: the error of [pd.read_csv], no download. *)
Lemma error_excludes_download_witness :
  (∀ text, Success text ∉ (run empty_uploaded).2) ∧
  (∀ label data file_name mime,
     DownloadButton label data file_name mime ∉ (run empty_uploaded).2).
Proof.
  apply (error_excludes_download empty_uploaded
           "Error processing the file: No columns to parse from file").
  apply list_elem_of_lookup_2 with 7. vm_compute. reflexivity.
Defined.

(** A dataset without amount column: the error names that column. *)
Lemma missing_columns_reported_witness :
  (run no_amount_clicked).2 !! 10 =
    Some (Error "Error processing the file: Missing required columns: amount").
Proof.
  assert (¬ required_cols ⊆ list_to_set (columns (df no_amount))) as Hmissing.
  { apply (bool_decide_eq_false_1 _). vm_compute. reflexivity. }
  assert (read_csv (Parsed (df no_amount)) = inr (df no_amount)) as Hread
    by reflexivity.
  destruct (missing_columns_reported no_amount_clicked (Parsed (df no_amount))
              (df no_amount) eq_refl Hread eq_refl Hmissing)
    as (names & Hnames & _ & Hpage).
  rewrite Hpage.
  assert (elements (required_cols ∖ list_to_set (columns (df no_amount)))
          = ["amount"]) as Helements by (vm_compute; reflexivity).
  rewrite Helements in Hnames. apply Permutation_singleton_r in Hnames.
  rewrite Hnames. reflexivity.
Defined.

(** The dataset [smith] uploaded, the defaults kept, the button clicked. *)
Lemma download_holds_inputs_witness :
  ∃ recs : list (list (@value decimal)),
    smith_out = writerows recs ∧ length recs = 9 ∧
    recs !! 1 = Some [Str "HDR1"; Str "ABC Ltd"; Str "12345678"; Str "HSBC";
                      Str "2024-01-15"; Str ""; Str ""; Str ""] ∧
    recs !! 2 = Some [Str "HDR2"; Str "Payment Batch 001"; Str "001";
                      Str ""; Str ""; Str ""; Str ""; Str ""].
Proof.
  assert (DownloadButton "Download BACS File" smith_out "bacs_file.csv" "text/csv"
            ∈ (run smith_clicked).2) as Hbutton
    by (apply list_elem_of_lookup_2 with 11; vm_compute; reflexivity).
  destruct (download_holds_inputs smith_clicked _ _ _ _ Hbutton)
    as (name & account & batch & sort_code & d & recs & amount &
        Hname & Haccount & Hbatch & _ & Hd & Hdata & Hlen & Hhdr1 & Hhdr2 & _).
  vm_compute in Hname. injection Hname as <-.
  vm_compute in Haccount. injection Haccount as <-.
  vm_compute in Hbatch. injection Hbatch as <-.
  vm_compute in Hd. injection Hd as <-.
  exists recs. split; [exact Hdata|]. split; [exact Hlen|].
  split; [exact Hhdr1 | exact Hhdr2].
Defined.

(** A call that raises, on the DataFrame of [bad_second] passed by
    reference: the DataFrame and the caller's list are as they were. *)
Lemma C10_witness :
  (Heap.call caller_objects by_reference morning).1 = Raise ValueError ∧
  Heap.objects (Heap.call caller_objects by_reference morning).2 !! 5%positive
    = Some (Heap.DataFrameObject (df bad_second)) ∧
  Heap.objects (Heap.call caller_objects by_reference morning).2 !! 1%positive
    = Some (Heap.ListObject [[Str "kept"]]).
Proof.
  assert (caller_objects !! Heap.df by_reference
          = Some (Heap.DataFrameObject (df bad_second))) as Hd
    by (vm_compute; reflexivity).
  destruct (C10_inputs_unchanged caller_objects by_reference (df bad_second) morning Hd)
    as (Hdf & Hkept & _ & Hcall).
  split; [|split].
  - rewrite Hcall. vm_compute. reflexivity.
  - exact Hdf.
  - apply Hkept. vm_compute. reflexivity.
Defined.
